(** * Stored-procedure documentation template: the assembly logic of
      [TEMPLATE_StoredProcedure.py], embedded as Rocq functions.

    The Python function [create_sp_doc] builds a python-docx document by
    appending block-level items one after the other.  The embedding keeps
    the document as the list of blocks appended so far and threads it, with
    the running [section_num], through the code in source order.  Python
    exceptions are the [Raise] results of a small error monad. *)

From Stdlib Require Import Ascii.
From stdpp Require Import base gmap strings list pretty.

Open Scope string_scope.
Open Scope list_scope.

(** ** Exceptions and results *)

(** The two exceptions the body of [create_sp_doc] can raise: indexing an
    empty sequence ([p.runs[0]], [rows[i]], [cells[j]]) and subscripting a
    dict with a key it does not have. *)
Inductive PyErr :=
| IndexError
| KeyError (key : string).

Inductive result (A : Type) :=
| Ok (a : A)
| Raise (e : PyErr).
Arguments Ok {A} a.
Arguments Raise {A} e.

#[global] Instance result_ret : MRet result := λ A a, Ok a.
#[global] Instance result_bind : MBind result :=
  λ A B f m, match m with Ok a => f a | Raise e => Raise e end.
#[global] Instance result_fmap : FMap result :=
  λ A B f m, match m with Ok a => Ok (f a) | Raise e => Raise e end.

(** [for x in xs: s = body(s, x)], stopping at the first exception. *)
Fixpoint for_each {A S : Type} (body : S → A → result S) (xs : list A) (s : S)
  : result S :=
  match xs with
  | [] => Ok s
  | x :: xs' => s' ← body s x; for_each body xs' s'
  end.

(** [enumerate(xs, start)]. *)
Fixpoint enumerate {A : Type} (start : nat) (xs : list A) : list (nat * A) :=
  match xs with
  | [] => []
  | x :: xs' => (start, x) :: enumerate (S start) xs'
  end.

(** ** Truthiness: what [if v:] tests *)

Class Truthy (A : Type) := truthy : A → bool.
#[global] Hint Mode Truthy ! : typeclass_instances.

#[global] Instance string_truthy : Truthy string :=
  λ s, match s with EmptyString => false | String _ _ => true end.
#[global] Instance list_truthy {A} : Truthy (list A) :=
  λ l, match l with [] => false | _ :: _ => true end.
(** [None] is falsy; any other value has its own truthiness. *)
#[global] Instance option_truthy {A} `{Truthy A} : Truthy (option A) :=
  λ o, match o with None => false | Some a => truthy a end.
(** A dict is truthy when it has at least one key. *)
#[global] Instance dict_truthy {V} : Truthy (gmap string V) :=
  λ m, negb (bool_decide (m = ∅)).

(** The text python-docx sees for an optional string: [add_paragraph(None)]
    adds no run, exactly as [add_paragraph("")]. *)
Definition text_of (o : option string) : string := default "" o.

(** ** The input record *)

Module Change.
Record t := mk { date : string; summary : string; refDoc : string }.
End Change.

Module Param.
(** [defaultValue]: [None] when the key is absent, [Some None] for the
    Python value [None], [Some (Some s)] for a string. *)
Record t := mk {
  name : string; type : string; description : string;
  defaultValue : option (option string) }.
End Param.

Module Step.
Record t := mk { title : string; description : string }.
End Step.

Module Example.
(** [explanation]: [None] when the key is absent. *)
Record t := mk { title : string; code : string; explanation : option string }.
End Example.

Module History.
(** [refDoc]: [None] when the key is absent. *)
Record t := mk {
  version : string; date : string; changedBy : string; changes : string;
  refDoc : option string }.
End History.

(** [isinstance(logicFlow, list)] picks the first shape, anything else is
    handed to [add_paragraph] as text. *)
Inductive LogicFlow :=
| Steps (steps : list Step.t)
| Narrative (text : string).

(** The arguments of [create_sp_doc], under their source names. *)
Record Args := mkArgs {
  spName : string;
  version : string;
  createdDate : string;
  createdBy : string;
  schema : string;
  objectType : string;
  purpose : string;
  recentChanges : list Change.t;
  whatsNew : option string;
  parameters : list Param.t;
  logicFlow : LogicFlow;
  dependencies : option (gmap string (list string));
  usageExamples : list Example.t;
  performanceNotes : option string;
  errorHandling : option string;
  fullVersionHistory : list History.t;
  complexityScore : Z;
  isQA : bool }.

(** ** The document *)

Definition RGB : Type := nat * nat * nat.

(** Block-level items, one constructor per way the source creates one:
    the two-cell header table, [add_divider], the 14pt bold section title,
    [add_subheader], a plain [add_paragraph(text)], a ['List Bullet']
    paragraph, [add_code_block], and the version-history table. *)
Inductive Block :=
| HeaderTable (title_cell : list string) (meta_cell : list (string * string * RGB))
| Divider
| Heading (text : string)
| Subheader (text : string)
| Paragraph (text : string)
| Bullet (text : string)
| CodeBlock (code : string)
| Table (style : string) (cells : list (list string)).

Definition Doc : Type := list Block.

Definition add_divider (doc : Doc) : Doc := doc ++ [Divider].
Definition add_subheader (doc : Doc) (text : string) : Doc := doc ++ [Subheader text].
Definition add_code_block (doc : Doc) (code : string) : Doc := doc ++ [CodeBlock code].

(** The section-title snippet: an empty paragraph, then one run with the
    title text at 14pt bold. *)
Definition add_heading (doc : Doc) (text : string) : Doc := doc ++ [Heading text].

(** [doc.add_paragraph(text)]: python-docx gives the new paragraph a run
    only when [text] is truthy. *)
Definition add_paragraph (doc : Doc) (text : string) : Doc := doc ++ [Paragraph text].

(** [p.runs[0]] on the paragraph made by [add_paragraph(text)]. *)
Definition runs0 (text : string) : result unit :=
  if truthy text then Ok () else Raise IndexError.

(** [doc.add_paragraph(style='List Bullet')] followed by [add_run(text)],
    or [doc.add_paragraph(text, style='List Bullet')]. *)
Definition add_bullet (doc : Doc) (text : string) : Doc := doc ++ [Bullet text].

(** [doc.add_table(rows, cols)]: a grid of empty cells. *)
Definition add_table (rows cols : nat) : list (list string) :=
  replicate rows (replicate cols "").

(** [table.rows[i].cells[j].text = v]; either index out of range raises. *)
Definition set_cell (t : list (list string)) (i j : nat) (v : string)
  : result (list (list string)) :=
  match t !! i with
  | None => Raise IndexError
  | Some row =>
      if decide (j < length row) then Ok (<[i := <[j := v]> row]> t)
      else Raise IndexError
  end.

(** ** [create_sp_doc], block by block *)

Definition grey : RGB := (73, 80, 87)%nat.
Definition green : RGB := (40, 167, 69)%nat.

(** Lines 60-131: header table, metadata panel, divider. *)
Definition header_block (a : Args) (doc : Doc) : Doc :=
  let doc_title := if isQA a then "QA STORED PROCEDURE" else "STORED PROCEDURE" in
  let qa_label := if isQA a then "QA Procedure" else "Production" in
  let metadata :=
    [ ("Version:", "v" +:+ version a, grey);
      ("Type:", qa_label, if isQA a then green else grey);
      ("Created:", createdDate a, grey);
      ("Created By:", createdBy a, grey);
      ("Complexity:", pretty (complexityScore a) +:+ "/100", grey) ] in
  let doc :=
    doc ++ [HeaderTable
              [doc_title; "Technical Documentation"; schema a +:+ "." +:+ spName a]
              ((λ '(label, value, color), (label +:+ " ", value, color)) <$> metadata)] in
  add_divider doc.

Definition change_line (change : Change.t) : string :=
  Change.date change +:+ " - " +:+ Change.summary change
    +:+ " (" +:+ Change.refDoc change +:+ ")".

(** Lines 133-157: the unnumbered "5 MOST RECENT CHANGES" block. *)
Definition recent_changes_block (a : Args) (doc : Doc) : result Doc :=
  let doc := add_heading doc "5 MOST RECENT CHANGES" in
  doc ← (if truthy (recentChanges a) then
           Ok (foldl (λ doc change, add_bullet doc (change_line change))
                     doc (take 5 (recentChanges a)))
         else
           let doc := add_paragraph doc "No changes recorded yet." in
           _ ← runs0 "No changes recorded yet.";
           Ok doc);
  Ok (add_divider doc).

Definition qa_purpose_intro : string :=
  "This is a QA validation procedure designed to verify data quality and integrity. ".

(** Lines 159-176: section 1. *)
Definition purpose_section (a : Args) (doc : Doc) : result Doc :=
  let doc := add_heading doc "1. PURPOSE" in
  let text := if isQA a then qa_purpose_intro +:+ purpose a else purpose a in
  let doc := add_paragraph doc text in
  _ ← runs0 text;
  Ok (add_divider doc).

(** Lines 178-196: section 2 when [whatsNew] is truthy; fixes [section_num]. *)
Definition whats_new_section (a : Args) (doc : Doc) : result (Doc * nat) :=
  if truthy (whatsNew a) then
    let doc := add_heading doc ("2. WHAT'S NEW IN VERSION " +:+ version a) in
    let doc := add_subheader doc "Changes in This Version:" in
    let doc := add_paragraph doc (text_of (whatsNew a)) in
    _ ← runs0 (text_of (whatsNew a));
    Ok (add_divider doc, 3)
  else
    Ok (doc, 2).

Definition numbered (section_num : nat) (title : string) : string :=
  pretty section_num +:+ ". " +:+ title.

Definition render_param (doc : Doc) (param : Param.t) : result Doc :=
  let doc := add_subheader doc
               (Param.name param +:+ " (" +:+ Param.type param +:+ "):") in
  let doc := add_paragraph doc (Param.description param) in
  _ ← runs0 (Param.description param);
  match Param.defaultValue param with
  | Some v =>
      if truthy v then
        let line := "Default: " +:+ text_of v in
        let doc := add_paragraph doc line in
        _ ← runs0 line;
        Ok doc
      else Ok doc
  | None => Ok doc
  end.

(** Lines 198-225. *)
Definition parameters_section (a : Args) (st : Doc * nat) : result (Doc * nat) :=
  let '(doc, section_num) := st in
  let doc := add_heading doc (numbered section_num "PARAMETERS") in
  doc ← (if truthy (parameters a) then
           for_each render_param (parameters a) doc
         else
           let doc := add_paragraph doc "No parameters" in
           _ ← runs0 "No parameters";
           Ok doc);
  Ok (add_divider doc, section_num + 1).

Definition render_step (doc : Doc) (ix : nat * Step.t) : result Doc :=
  let '(i, step) := ix in
  let doc := add_subheader doc
               ("Step " +:+ pretty i +:+ ": " +:+ Step.title step) in
  let doc := add_paragraph doc (Step.description step) in
  _ ← runs0 (Step.description step);
  Ok doc.

(** Lines 227-248. *)
Definition logic_flow_section (a : Args) (st : Doc * nat) : result (Doc * nat) :=
  let '(doc, section_num) := st in
  let doc := add_heading doc (numbered section_num "LOGIC FLOW") in
  doc ← match logicFlow a with
        | Steps steps => for_each render_step (enumerate 1 steps) doc
        | Narrative text =>
            let doc := add_paragraph doc text in
            _ ← runs0 text;
            Ok doc
        end;
  Ok (add_divider doc, section_num + 1).

(** One of the two sub-blocks of Dependencies:
    [if key in dependencies and dependencies[key]: ...]. *)
Definition dependency_list (deps : gmap string (list string))
    (key label : string) (doc : Doc) : result Doc :=
  match deps !! key with
  | Some items =>
      if truthy items then
        let doc := add_subheader doc label in
        for_each (λ doc item,
                    let line := "• " +:+ item in
                    let doc := add_bullet doc line in
                    _ ← runs0 line;
                    Ok doc) items doc
      else Ok doc
  | None => Ok doc
  end.

(** Lines 250-275. *)
Definition dependencies_section (a : Args) (st : Doc * nat) : result (Doc * nat) :=
  let '(doc, section_num) := st in
  if (30 <? complexityScore a)%Z && truthy (dependencies a) then
    let deps := default ∅ (dependencies a) in
    let doc := add_heading doc (numbered section_num "DEPENDENCIES") in
    doc ← dependency_list deps "tables" "Tables Accessed:" doc;
    doc ← dependency_list deps "procedures" "Stored Procedures Called:" doc;
    Ok (add_divider doc, section_num + 1)
  else Ok (doc, section_num).

Definition render_example (doc : Doc) (ix : nat * Example.t) : result Doc :=
  let '(i, example) := ix in
  let doc := add_subheader doc
               ("Example " +:+ pretty i +:+ ": " +:+ Example.title example) in
  let doc := add_code_block doc (Example.code example) in
  match Example.explanation example with
  | Some text =>
      let doc := add_paragraph doc text in
      _ ← runs0 text;
      Ok doc
  | None => Ok doc
  end.

(** Lines 277-297. *)
Definition usage_examples_section (a : Args) (st : Doc * nat) : result (Doc * nat) :=
  let '(doc, section_num) := st in
  let doc := add_heading doc (numbered section_num "USAGE EXAMPLES") in
  doc ← (if truthy (usageExamples a) then
           for_each render_example (enumerate 1 (usageExamples a)) doc
         else Ok doc);
  Ok (add_divider doc, section_num + 1).

(** Lines 299-313 and 315-329: a gated prose section. *)
Definition prose_section (threshold : Z) (title : string) (text : option string)
    (a : Args) (st : Doc * nat) : result (Doc * nat) :=
  let '(doc, section_num) := st in
  if (threshold <? complexityScore a)%Z && truthy text then
    let doc := add_heading doc (numbered section_num title) in
    let doc := add_paragraph doc (text_of text) in
    _ ← runs0 (text_of text);
    Ok (add_divider doc, section_num + 1)
  else Ok (doc, section_num).

Definition performance_notes_section (a : Args) :=
  prose_section 50 "PERFORMANCE NOTES" (performanceNotes a) a.

Definition error_handling_section (a : Args) :=
  prose_section 40 "ERROR HANDLING" (errorHandling a) a.

Definition headers : list string := ["Version"; "Date"; "Changed By"; "Changes"].

(** [entry['refDoc']]. *)
Definition get_refDoc (entry : History.t) : result string :=
  match History.refDoc entry with
  | Some v => Ok v
  | None => Raise (KeyError "refDoc")
  end.

(** The body of the loop over [enumerate(fullVersionHistory, 1)]. *)
Definition fill_row (t : list (list string)) (ix : nat * History.t)
  : result (list (list string)) :=
  let '(i, entry) := ix in
  t ← set_cell t i 0 ("v" +:+ History.version entry);
  t ← set_cell t i 1 (History.date entry);
  t ← set_cell t i 2 (History.changedBy entry);
  ref ← get_refDoc entry;
  set_cell t i 3 (if truthy ref
                  then History.changes entry +:+ " (Ref: " +:+ ref +:+ ")"
                  else History.changes entry).

(** Lines 331-362.  The table object is the one the document holds; it is
    filled in place, and nothing else is appended before the function
    returns, so the filled table is appended here in one go. *)
Definition version_history_section (a : Args) (st : Doc * nat) : result Doc :=
  let '(doc, section_num) := st in
  let doc := add_heading doc (numbered section_num "FULL VERSION HISTORY") in
  if truthy (fullVersionHistory a) then
    let t := add_table (length (fullVersionHistory a) + 1) 4 in
    t ← for_each (λ t '(i, header_text), set_cell t 0 i header_text)
                 (enumerate 0 headers) t;
    t ← for_each fill_row (enumerate 1 (fullVersionHistory a)) t;
    Ok (doc ++ [Table "Light Grid Accent 1" t])
  else Ok doc.

Definition create_sp_doc (a : Args) : result Doc :=
  let doc : Doc := [] in
  let doc := header_block a doc in
  doc ← recent_changes_block a doc;
  doc ← purpose_section a doc;
  st ← whats_new_section a doc;
  st ← parameters_section a st;
  st ← logic_flow_section a st;
  st ← dependencies_section a st;
  st ← usage_examples_section a st;
  st ← performance_notes_section a st;
  st ← error_handling_section a st;
  version_history_section a st.

(** ** The call in the [__main__] block *)

Definition sample : Args := {|
  spName := "usp_Customer_Update";
  version := "1.2";
  createdDate := "2024-10-01";
  createdBy := "A.Kirby";
  schema := "dbo";
  objectType := "Stored Procedure";
  purpose := "Updates customer information including contact details and preferences. Validates input data and maintains audit trail.";
  recentChanges :=
    [ Change.mk "2024-12-03" "Added error handling for NULL inputs" "DF-0089";
      Change.mk "2024-11-15" "Optimized JOIN performance" "EN-0067";
      Change.mk "2024-10-20" "Added email validation" "BR-0045";
      Change.mk "2024-10-10" "Fixed timezone handling" "DF-0032";
      Change.mk "2024-10-01" "Initial documentation" "" ];
  whatsNew := Some "Added comprehensive error handling for NULL and invalid input parameters. Procedure now validates email format before update and returns detailed error codes.";
  parameters :=
    [ Param.mk "@CustomerID" "INT" "Unique customer identifier" (Some None);
      Param.mk "@Email" "VARCHAR(255)" "Customer email address" (Some None);
      Param.mk "@Phone" "VARCHAR(20)" "Customer phone number" (Some (Some "NULL")) ];
  logicFlow := Steps
    [ Step.mk "Input Validation" "Validates all input parameters. Checks CustomerID exists, email format is valid, phone number format is correct.";
      Step.mk "Begin Transaction" "Starts transaction to ensure data consistency across multiple table updates.";
      Step.mk "Update Customer Table" "Updates primary customer record with new contact information.";
      Step.mk "Update Audit Log" "Records change in audit table with timestamp and user information.";
      Step.mk "Commit Transaction" "Commits all changes if successful, rolls back on any error." ];
  dependencies := Some
    {[ "tables" := ["dbo.Customers"; "dbo.CustomerAudit"; "dbo.EmailValidation"];
       "procedures" := ["dbo.usp_ValidateEmail"; "dbo.usp_LogAuditEntry"] ]};
  usageExamples :=
    [ Example.mk "Update customer email"
        "EXEC dbo.usp_Customer_Update 
    @CustomerID = 12345,
    @Email = 'john.doe@example.com',
    @Phone = NULL"
        (Some "Updates email address for customer ID 12345 without changing phone number.") ];
  performanceNotes := Some "Procedure uses covering index on CustomerID for optimal lookup performance. Average execution time: 15ms. Recommended to batch updates if processing >1000 records.";
  errorHandling := Some "Returns error code -1 for invalid CustomerID, -2 for invalid email format, -3 for database constraint violations. All errors are logged to ErrorLog table.";
  fullVersionHistory :=
    [ History.mk "1.2" "2024-12-03" "A.Kirby" "Added error handling for NULL inputs" (Some "DF-0089");
      History.mk "1.1" "2024-11-15" "J.Smith" "Optimized JOIN performance" (Some "EN-0067");
      History.mk "1.0" "2024-10-01" "System" "Initial documentation" (Some "") ];
  complexityScore := 45;
  isQA := false |}.

(** ** What can be read off a finished document *)

(** The texts of the section-title paragraphs, in document order. *)
Definition headings (d : Doc) : list string :=
  omap (λ b, match b with Heading t => Some t | _ => None end) d.

(** The document cut at its section titles: the blocks before the first
    title, then each title with the blocks up to the next one. *)
Fixpoint split_sections (d : Doc) : list Block * list (string * list Block) :=
  match d with
  | [] => ([], [])
  | Heading t :: d' => let '(pre, ss) := split_sections d' in ([], (t, pre) :: ss)
  | b :: d' => let '(pre, ss) := split_sections d' in (b :: pre, ss)
  end.

Definition sections (d : Doc) : list (string * list Block) := (split_sections d).2.

(** The value of a decimal digit, from its character code. *)
Definition digit_val (c : ascii) : option N :=
  let code := N_of_ascii c in
  if (48 <=? code)%N && (code <=? 57)%N then Some (code - 48)%N else None.

(** Reads the decimal digits at the front of [s] on top of [acc]. *)
Fixpoint read_digits (acc : N) (s : string) : N * string :=
  match s with
  | String c s' =>
      match digit_val c with
      | Some v => read_digits (10 * acc + v) s'
      | None => (acc, s)
      end
  | EmptyString => (acc, s)
  end.

(** A numbered title "<digits>. <title>" read back as number and title. *)
Definition parse_heading (h : string) : option (nat * string) :=
  match h with
  | String c _ =>
      match digit_val c, read_digits 0 h with
      | Some _, (n, String "." (String " " t)) => Some (N.to_nat n, t)
      | _, _ => None
      end
  | EmptyString => None
  end.

Definition numbered_sections (d : Doc) : list (nat * string) :=
  omap parse_heading (headings d).

Definition section_numbers (d : Doc) : list nat := (numbered_sections d).*1.
Definition section_titles (d : Doc) : list string := (numbered_sections d).*2.

(** The body of the numbered section called [title], if the document has one. *)
Definition has_title (title : string) (s : string * list Block) : bool :=
  match parse_heading s.1 with
  | Some (_, t) => String.eqb t title
  | None => false
  end.

Definition section_body (title : string) (d : Doc) : option (list Block) :=
  snd <$> List.find (has_title title) (sections d).

Inductive Kind :=
| KHeaderTable | KDivider | KHeading | KSubheader | KParagraph | KBullet
| KCodeBlock | KTable.

#[global] Instance Kind_eq_dec : EqDecision Kind.
Proof. solve_decision. Defined.

Definition kind (b : Block) : Kind :=
  match b with
  | HeaderTable _ _ => KHeaderTable
  | Divider => KDivider
  | Heading _ => KHeading
  | Subheader _ => KSubheader
  | Paragraph _ => KParagraph
  | Bullet _ => KBullet
  | CodeBlock _ => KCodeBlock
  | Table _ _ => KTable
  end.

(** ** The layout as a function of the record

    The same document written as data: a canonical list of sections, each
    with its gate, title and body, numbered by position among the sections
    whose gate holds.  [create_sp_doc_layout] below shows that the
    imperative code computes exactly this. *)

Definition purpose_text (a : Args) : string :=
  if isQA a then qa_purpose_intro +:+ purpose a else purpose a.

Definition recent_body (a : Args) : list Block :=
  (if truthy (recentChanges a)
   then (λ change, Bullet (change_line change)) <$> take 5 (recentChanges a)
   else [Paragraph "No changes recorded yet."]) ++ [Divider].

Definition param_blocks (param : Param.t) : list Block :=
  [Subheader (Param.name param +:+ " (" +:+ Param.type param +:+ "):");
   Paragraph (Param.description param)]
  ++ match Param.defaultValue param with
     | Some v => if truthy v then [Paragraph ("Default: " +:+ text_of v)] else []
     | None => []
     end.

Definition parameters_body (a : Args) : list Block :=
  (if truthy (parameters a) then flat_map param_blocks (parameters a)
   else [Paragraph "No parameters"]) ++ [Divider].

Definition step_blocks (ix : nat * Step.t) : list Block :=
  [Subheader ("Step " +:+ pretty ix.1 +:+ ": " +:+ Step.title ix.2);
   Paragraph (Step.description ix.2)].

Definition logic_flow_body (a : Args) : list Block :=
  match logicFlow a with
  | Steps steps => flat_map step_blocks (enumerate 1 steps)
  | Narrative text => [Paragraph text]
  end ++ [Divider].

Definition dependency_blocks (deps : gmap string (list string))
    (key label : string) : list Block :=
  match deps !! key with
  | Some items =>
      if truthy items
      then Subheader label :: ((λ item, Bullet ("• " +:+ item)) <$> items)
      else []
  | None => []
  end.

Definition dependencies_body (a : Args) : list Block :=
  let deps := default ∅ (dependencies a) in
  dependency_blocks deps "tables" "Tables Accessed:"
  ++ dependency_blocks deps "procedures" "Stored Procedures Called:"
  ++ [Divider].

Definition example_blocks (ix : nat * Example.t) : list Block :=
  [Subheader ("Example " +:+ pretty ix.1 +:+ ": " +:+ Example.title ix.2);
   CodeBlock (Example.code ix.2)]
  ++ match Example.explanation ix.2 with
     | Some text => [Paragraph text]
     | None => []
     end.

Definition usage_examples_body (a : Args) : list Block :=
  flat_map example_blocks (enumerate 1 (usageExamples a)) ++ [Divider].

Definition prose_body (text : option string) : list Block :=
  [Paragraph (text_of text); Divider].

Definition changes_cell (entry : History.t) : string :=
  let ref := text_of (History.refDoc entry) in
  if truthy ref then History.changes entry +:+ " (Ref: " +:+ ref +:+ ")"
  else History.changes entry.

Definition history_row (entry : History.t) : list string :=
  ["v" +:+ History.version entry; History.date entry;
   History.changedBy entry; changes_cell entry].

Definition version_history_body (a : Args) : list Block :=
  if truthy (fullVersionHistory a)
  then [Table "Light Grid Accent 1" (headers :: (history_row <$> fullVersionHistory a))]
  else [].

(** The four gates of the source. *)
Definition whats_new_gate (a : Args) : bool := truthy (whatsNew a).
Definition dependencies_gate (a : Args) : bool :=
  (30 <? complexityScore a)%Z && truthy (dependencies a).
Definition performance_notes_gate (a : Args) : bool :=
  (50 <? complexityScore a)%Z && truthy (performanceNotes a).
Definition error_handling_gate (a : Args) : bool :=
  (40 <? complexityScore a)%Z && truthy (errorHandling a).

Definition gate_count (a : Args) : nat :=
  Nat.b2n (whats_new_gate a) + Nat.b2n (dependencies_gate a)
  + Nat.b2n (performance_notes_gate a) + Nat.b2n (error_handling_gate a).

Record Sec := mkSec { sec_include : bool; sec_title : string; sec_body : list Block }.

(** The numbered sections in source order. *)
Definition canonical (a : Args) : list Sec :=
  [ mkSec true "PURPOSE" [Paragraph (purpose_text a); Divider];
    mkSec (whats_new_gate a) ("WHAT'S NEW IN VERSION " +:+ version a)
      (Subheader "Changes in This Version:" :: prose_body (whatsNew a));
    mkSec true "PARAMETERS" (parameters_body a);
    mkSec true "LOGIC FLOW" (logic_flow_body a);
    mkSec (dependencies_gate a) "DEPENDENCIES" (dependencies_body a);
    mkSec true "USAGE EXAMPLES" (usage_examples_body a);
    mkSec (performance_notes_gate a) "PERFORMANCE NOTES" (prose_body (performanceNotes a));
    mkSec (error_handling_gate a) "ERROR HANDLING" (prose_body (errorHandling a));
    mkSec true "FULL VERSION HISTORY" (version_history_body a) ].

Definition emitted (a : Args) : list Sec := List.filter sec_include (canonical a).

Definition render_sec (ix : nat * Sec) : list Block :=
  Heading (numbered ix.1 (sec_title ix.2)) :: sec_body ix.2.

Definition assemble (a : Args) : Doc :=
  header_block a []
  ++ Heading "5 MOST RECENT CHANGES" :: recent_body a
  ++ flat_map render_sec (enumerate 1 (emitted a)).

(** When [p.runs[0]] finds a run everywhere it is used. *)
Definition param_ok (param : Param.t) : bool := truthy (Param.description param).
Definition step_ok (ix : nat * Step.t) : bool := truthy (Step.description ix.2).
Definition example_ok (ix : nat * Example.t) : bool :=
  match Example.explanation ix.2 with Some text => truthy text | None => true end.

Definition logic_flow_ok (a : Args) : bool :=
  match logicFlow a with
  | Steps steps => forallb step_ok (enumerate 1 steps)
  | Narrative text => truthy text
  end.

Definition texts_ok (a : Args) : bool :=
  truthy (purpose_text a)
  && forallb param_ok (parameters a)
  && logic_flow_ok a
  && forallb example_ok (enumerate 1 (usageExamples a)).

Definition has_refDoc (ix : nat * History.t) : bool :=
  bool_decide (is_Some (History.refDoc ix.2)).

(** When every history entry has its [refDoc] key. *)
Definition refs_ok (a : Args) : bool :=
  forallb (λ entry, bool_decide (is_Some (History.refDoc entry))) (fullVersionHistory a).

Definition renderable (a : Args) : bool := texts_ok a && refs_ok a.

Definition sec_entry (ix : nat * Sec) : string * list Block :=
  (numbered ix.1 (sec_title ix.2), sec_body ix.2).

(** ** Records derived from another one *)

Definition with_score (z : Z) (a : Args) : Args :=
  mkArgs (spName a) (version a) (createdDate a) (createdBy a) (schema a)
    (objectType a) (purpose a) (recentChanges a) (whatsNew a) (parameters a)
    (logicFlow a) (dependencies a) (usageExamples a) (performanceNotes a)
    (errorHandling a) (fullVersionHistory a) z (isQA a).


Definition with_isQA (qa : bool) (a : Args) : Args :=
  mkArgs (spName a) (version a) (createdDate a) (createdBy a) (schema a)
    (objectType a) (purpose a) (recentChanges a) (whatsNew a) (parameters a)
    (logicFlow a) (dependencies a) (usageExamples a) (performanceNotes a)
    (errorHandling a) (fullVersionHistory a) (complexityScore a) qa.

Definition with_dependencies (deps : option (gmap string (list string)))
    (a : Args) : Args :=
  mkArgs (spName a) (version a) (createdDate a) (createdBy a) (schema a)
    (objectType a) (purpose a) (recentChanges a) (whatsNew a) (parameters a)
    (logicFlow a) deps (usageExamples a) (performanceNotes a)
    (errorHandling a) (fullVersionHistory a) (complexityScore a) (isQA a).

Definition with_usageExamples (examples : list Example.t) (a : Args) : Args :=
  mkArgs (spName a) (version a) (createdDate a) (createdBy a) (schema a)
    (objectType a) (purpose a) (recentChanges a) (whatsNew a) (parameters a)
    (logicFlow a) (dependencies a) examples (performanceNotes a)
    (errorHandling a) (fullVersionHistory a) (complexityScore a) (isQA a).

Definition with_fullVersionHistory (history : list History.t) (a : Args) : Args :=
  mkArgs (spName a) (version a) (createdDate a) (createdBy a) (schema a)
    (objectType a) (purpose a) (recentChanges a) (whatsNew a) (parameters a)
    (logicFlow a) (dependencies a) (usageExamples a) (performanceNotes a)
    (errorHandling a) history (complexityScore a) (isQA a).

Definition with_recentChanges (changes : list Change.t) (a : Args) : Args :=
  mkArgs (spName a) (version a) (createdDate a) (createdBy a) (schema a)
    (objectType a) (purpose a) changes (whatsNew a) (parameters a)
    (logicFlow a) (dependencies a) (usageExamples a) (performanceNotes a)
    (errorHandling a) (fullVersionHistory a) (complexityScore a) (isQA a).


(** ** The statements under test, as the specification words them *)

(** The specification's gate for Dependencies: the score above 30 and one
    of the two sub-lists non-empty. *)
Definition claimed_dependencies_gate (a : Args) : bool :=
  let deps : gmap string (list string) := default ∅ (dependencies a) in
  (30 <? complexityScore a)%Z
  && (truthy (deps !! "tables") || truthy (deps !! "procedures")).

Definition dependencies_claim (a : Args) : Prop :=
  ∀ d, create_sp_doc a = Ok d →
       ("DEPENDENCIES" ∈ section_titles d ↔ claimed_dependencies_gate a = true).


Definition claimed_gate_count (a : Args) : nat :=
  Nat.b2n (whats_new_gate a) + Nat.b2n (claimed_dependencies_gate a)
  + Nat.b2n (performance_notes_gate a) + Nat.b2n (error_handling_gate a).

(** The numbers run from 1 to seven plus the satisfied gates. *)
Definition numbering_claim (a : Args) : Prop :=
  ∀ d, create_sp_doc a = Ok d →
       section_numbers d = seq 1 (7 + claimed_gate_count a).

(** The history section always holds a table: the header row, then one
    row per entry. *)
Definition history_table_claim (a : Args) : Prop :=
  ∀ d, create_sp_doc a = Ok d →
       ∃ style rows,
         section_body "FULL VERSION HISTORY" d = Some [Table style (headers :: rows)]
         ∧ length rows = length (fullVersionHistory a).

(** Blanks what the specification lets the mode change: the title in the
    header table and the paragraph under "1. PURPOSE". *)
Fixpoint mask_title_intro (d : Doc) : Doc :=
  match d with
  | [] => []
  | HeaderTable lines meta :: d' =>
      HeaderTable ("" :: tail lines) meta :: mask_title_intro d'
  | Heading t :: d' =>
      Heading t ::
        (if String.eqb t "1. PURPOSE" then
           match d' with
           | Paragraph _ :: d'' => Paragraph "" :: mask_title_intro d''
           | _ => mask_title_intro d'
           end
         else mask_title_intro d')
  | b :: d' => b :: mask_title_intro d'
  end.

Definition mode_claim (a : Args) : Prop :=
  ∀ ds dq,
    create_sp_doc (with_isQA false a) = Ok ds →
    create_sp_doc (with_isQA true a) = Ok dq →
    mask_title_intro ds = mask_title_intro dq.

(** Blanks, on top of that, the value and colour of the "Type:" line of
    the metadata panel. *)
Definition mask_type (entry : string * string * RGB) : string * string * RGB :=
  let '(label, value, color) := entry in
  if String.eqb label "Type: " then (label, "", (0, 0, 0)%nat) else entry.

Definition mask_header (b : Block) : Block :=
  match b with
  | HeaderTable lines meta => HeaderTable lines (mask_type <$> meta)
  | _ => b
  end.

Definition mask_mode (d : Doc) : Doc := mask_header <$> mask_title_intro d.

(** The texts of the bullet paragraphs of a body. *)
Definition bullets (body : list Block) : list string :=
  omap (λ b, match b with Bullet t => Some t | _ => None end) body.

Definition count_kind (k : Kind) (body : list Block) : nat :=
  length (List.filter (λ b, bool_decide (kind b = k)) body).

(** ** Inputs used below *)

(** Score 31, a dependencies mapping with both keys and two empty lists. *)
Definition empty_lists_args : Args :=
  with_score 31
    (with_dependencies (Some {[ "tables" := []; "procedures" := [] ]}) sample).

Definition out_of_range_args : Args := with_score 150 sample.

Definition no_history_args : Args := with_fullVersionHistory [] sample.

Definition empty_explanation_args : Args :=
  with_usageExamples [Example.mk "Update customer email" "EXEC dbo.usp_Customer_Update" (Some "")] sample.

(** Eight recent changes, the fifth without a reference. *)
Definition eight_changes_args : Args :=
  with_recentChanges
    (recentChanges sample
     ++ [ Change.mk "2024-09-20" "Renamed audit columns" "EN-0031";
          Change.mk "2024-09-12" "Added phone column" "BR-0027";
          Change.mk "2024-09-01" "Created procedure" "" ])
    sample.

Definition with_objectType (t : string) (a : Args) : Args :=
  mkArgs (spName a) (version a) (createdDate a) (createdBy a) (schema a)
    t (purpose a) (recentChanges a) (whatsNew a) (parameters a)
    (logicFlow a) (dependencies a) (usageExamples a) (performanceNotes a)
    (errorHandling a) (fullVersionHistory a) (complexityScore a) (isQA a).


Definition with_whatsNew (text : option string) (a : Args) : Args :=
  mkArgs (spName a) (version a) (createdDate a) (createdBy a) (schema a)
    (objectType a) (purpose a) (recentChanges a) text (parameters a)
    (logicFlow a) (dependencies a) (usageExamples a) (performanceNotes a)
    (errorHandling a) (fullVersionHistory a) (complexityScore a) (isQA a).

(** The blocks a section body is made of, apart from its closing divider. *)
Definition inner (b : Block) : bool :=
  match b with
  | Subheader _ | Paragraph _ | Bullet _ | CodeBlock _ => true
  | _ => false
  end.

(** The sample call with a history entry that has no refDoc key. *)
Definition missing_refDoc_args : Args :=
  with_fullVersionHistory
    [History.mk "1.0" "2024-10-01" "System" "Initial documentation" None] sample.

(** * Properties *)

(** ** The sample call *)

Example sample_numbers :
  section_numbers <$> create_sp_doc sample = Ok [1; 2; 3; 4; 5; 6; 7; 8]%nat.
Proof. vm_compute. reflexivity. Qed.

Example sample_titles :
  section_titles <$> create_sp_doc sample =
  Ok ["PURPOSE"; "WHAT'S NEW IN VERSION 1.2"; "PARAMETERS"; "LOGIC FLOW";
      "DEPENDENCIES"; "USAGE EXAMPLES"; "ERROR HANDLING"; "FULL VERSION HISTORY"].
Proof. vm_compute. reflexivity. Qed.

Example sample_error_handling :
  section_body "ERROR HANDLING" <$> create_sp_doc sample =
  Ok (Some [Paragraph (text_of (errorHandling sample)); Divider]).
Proof. vm_compute. reflexivity. Qed.

Example sample_renderable : renderable sample = true.
Proof. reflexivity. Qed.

Example sample_layout : create_sp_doc sample = Ok (assemble sample).
Proof. vm_compute. reflexivity. Qed.

(** ** Loops that only append *)

Lemma result_bind_ok {A B} (f : A → result B) (x : A) : (Ok x ≫= f) = f x.
Proof. reflexivity. Qed.

Lemma result_bind_raise {A B} (f : A → result B) (e : PyErr) :
  (Raise e ≫= f) = Raise e.
Proof. reflexivity. Qed.

Lemma for_each_blocks {A} (body : Doc → A → result Doc)
    (ok : A → bool) (out : A → list Block) (e : PyErr) :
  (∀ doc x, body doc x = if ok x then Ok (doc ++ out x) else Raise e) →
  ∀ xs doc,
    for_each body xs doc
    = if forallb ok xs then Ok (doc ++ flat_map out xs) else Raise e.
Proof.
  intros Hbody xs. induction xs as [|x xs IH]; intros doc; simpl.
  - by rewrite app_nil_r.
  - rewrite Hbody. destruct (ok x); simpl; [|done].
    rewrite ?result_bind_ok, IH. destruct (forallb ok xs); [|done].
    by rewrite <- app_assoc.
Qed.

Lemma foldl_bullets {A} (f : A → string) (xs : list A) (doc : Doc) :
  foldl (λ doc x, add_bullet doc (f x)) doc xs
  = doc ++ ((λ x, Bullet (f x)) <$> xs).
Proof.
  revert doc. induction xs as [|x xs IH]; intros doc; simpl.
  - by rewrite app_nil_r.
  - rewrite IH. unfold add_bullet. by rewrite <- app_assoc.
Qed.

Lemma flat_map_singleton {A B} (f : A → B) (xs : list A) :
  flat_map (λ x, [f x]) xs = f <$> xs.
Proof. induction xs as [|x xs IH]; simpl; [done|by rewrite IH]. Qed.

(** ** Each block of the source against its layout *)

Lemma recent_changes_block_spec a doc :
  recent_changes_block a doc
  = Ok (doc ++ Heading "5 MOST RECENT CHANGES" :: recent_body a).
Proof.
  unfold recent_changes_block, recent_body, add_heading, add_divider, add_paragraph.
  destruct (truthy (recentChanges a)); simpl.
  - rewrite foldl_bullets. by rewrite <- !app_assoc.
  - by rewrite <- !app_assoc.
Qed.

Lemma purpose_section_spec a doc :
  purpose_section a doc
  = if truthy (purpose_text a)
    then Ok (doc ++ [Heading "1. PURPOSE"; Paragraph (purpose_text a); Divider])
    else Raise IndexError.
Proof.
  unfold purpose_section, purpose_text, runs0, add_heading, add_divider, add_paragraph.
  destruct (truthy _); simpl; [|done]. by rewrite <- !app_assoc.
Qed.

Lemma truthy_text_of (o : option string) : truthy o = truthy (text_of o).
Proof. by destruct o. Qed.

Lemma whats_new_section_spec a doc :
  whats_new_section a doc
  = Ok (if whats_new_gate a
        then (doc ++ [Heading ("2. WHAT'S NEW IN VERSION " +:+ version a);
                      Subheader "Changes in This Version:";
                      Paragraph (text_of (whatsNew a)); Divider], 3)
        else (doc, 2)).
Proof.
  unfold whats_new_section, whats_new_gate, runs0.
  rewrite <- truthy_text_of. destruct (truthy (whatsNew a)); simpl; [|done].
  unfold add_heading, add_divider, add_paragraph, add_subheader.
  by rewrite <- !app_assoc.
Qed.

Lemma render_param_spec doc param :
  render_param doc param
  = if param_ok param then Ok (doc ++ param_blocks param) else Raise IndexError.
Proof.
  unfold render_param, param_ok, param_blocks, runs0,
    add_subheader, add_paragraph.
  destruct (truthy (Param.description param)); simpl; [|done].
  destruct (Param.defaultValue param) as [v|]; simpl.
  - destruct (truthy v); simpl; by rewrite <- !app_assoc.
  - by rewrite <- !app_assoc.
Qed.

Lemma parameters_section_spec a doc n :
  parameters_section a (doc, n)
  = if forallb param_ok (parameters a)
    then Ok (doc ++ Heading (numbered n "PARAMETERS") :: parameters_body a, n + 1)
    else Raise IndexError.
Proof.
  unfold parameters_section, parameters_body, add_heading, add_divider, add_paragraph.
  destruct (parameters a) as [|p ps] eqn:Hps.
  - simpl. by rewrite <- !app_assoc.
  - change (truthy (p :: ps)) with true. cbv iota.
    rewrite (for_each_blocks _ _ _ _ render_param_spec).
    destruct (forallb param_ok (p :: ps)); [|done].
    rewrite result_bind_ok. by rewrite <- !app_assoc.
Qed.

Lemma render_step_spec doc ix :
  render_step doc ix
  = if step_ok ix then Ok (doc ++ step_blocks ix) else Raise IndexError.
Proof.
  destruct ix as [i step].
  unfold render_step, step_ok, step_blocks, runs0, add_subheader, add_paragraph.
  simpl. destruct (truthy (Step.description step)); simpl; [|done].
  by rewrite <- !app_assoc.
Qed.

Lemma logic_flow_section_spec a doc n :
  logic_flow_section a (doc, n)
  = if logic_flow_ok a
    then Ok (doc ++ Heading (numbered n "LOGIC FLOW") :: logic_flow_body a, n + 1)
    else Raise IndexError.
Proof.
  unfold logic_flow_section, logic_flow_body, logic_flow_ok,
    add_heading, add_divider, add_paragraph, runs0.
  destruct (logicFlow a) as [steps|text].
  - rewrite (for_each_blocks _ _ _ _ render_step_spec).
    destruct (forallb _ _); [|done].
    rewrite result_bind_ok. by rewrite <- !app_assoc.
  - destruct (truthy text); simpl; [|done]. by rewrite <- !app_assoc.
Qed.

Lemma dependency_list_spec deps key label doc :
  dependency_list deps key label doc
  = Ok (doc ++ dependency_blocks deps key label).
Proof.
  unfold dependency_list, dependency_blocks.
  destruct (deps !! key) as [items|]; [|by rewrite app_nil_r].
  destruct (truthy items); [|by rewrite app_nil_r].
  rewrite (for_each_blocks _ (λ _, true) (λ item, [Bullet ("• " +:+ item)]) IndexError).
  - assert (forallb (λ _ : string, true) items = true) as ->
      by (by induction items).
    rewrite flat_map_singleton. unfold add_subheader. by rewrite <- !app_assoc.
  - intros doc' item. reflexivity.
Qed.

Lemma dependencies_section_spec a doc n :
  dependencies_section a (doc, n)
  = Ok (if dependencies_gate a
        then (doc ++ Heading (numbered n "DEPENDENCIES") :: dependencies_body a, n + 1)
        else (doc, n)).
Proof.
  unfold dependencies_section, dependencies_gate, dependencies_body.
  destruct (_ && _); [|done].
  unfold add_heading, add_divider.
  rewrite dependency_list_spec, result_bind_ok.
  rewrite dependency_list_spec, result_bind_ok.
  by rewrite <- !app_assoc.
Qed.

Lemma render_example_spec doc ix :
  render_example doc ix
  = if example_ok ix then Ok (doc ++ example_blocks ix) else Raise IndexError.
Proof.
  destruct ix as [i example].
  unfold render_example, example_ok, example_blocks, runs0,
    add_subheader, add_code_block, add_paragraph.
  simpl. destruct (Example.explanation example) as [text|]; simpl.
  - destruct (truthy text); simpl; [|done]. by rewrite <- !app_assoc.
  - by rewrite <- !app_assoc.
Qed.

Lemma usage_examples_section_spec a doc n :
  usage_examples_section a (doc, n)
  = if forallb example_ok (enumerate 1 (usageExamples a))
    then Ok (doc ++ Heading (numbered n "USAGE EXAMPLES") :: usage_examples_body a, n + 1)
    else Raise IndexError.
Proof.
  unfold usage_examples_section, usage_examples_body, add_heading, add_divider.
  destruct (usageExamples a) as [|e es] eqn:Hes.
  - simpl. by rewrite <- !app_assoc.
  - change (truthy (e :: es)) with true. cbv iota.
    rewrite (for_each_blocks _ _ _ _ render_example_spec).
    destruct (forallb _ _); [|done].
    rewrite result_bind_ok. by rewrite <- !app_assoc.
Qed.

Lemma prose_section_spec threshold title text a doc n :
  prose_section threshold title text a (doc, n)
  = Ok (if (threshold <? complexityScore a)%Z && truthy text
        then (doc ++ Heading (numbered n title) :: prose_body text, n + 1)
        else (doc, n)).
Proof.
  unfold prose_section, prose_body, runs0. rewrite (truthy_text_of text).
  destruct (threshold <? complexityScore a)%Z; simpl; [|done].
  destruct (truthy (text_of text)); simpl; [|done].
  unfold add_heading, add_divider, add_paragraph. by rewrite <- !app_assoc.
Qed.

(** ** The version-history table *)

Lemma set_cell_middle (pre post : list (list string)) (row : list string) j v :
  j < length row →
  set_cell (pre ++ row :: post) (length pre) j v = Ok (pre ++ <[j:=v]> row :: post).
Proof.
  intros Hj. unfold set_cell. rewrite list_lookup_middle by done.
  destruct (decide (j < length row)); [|lia].
  f_equal. rewrite insert_app_r_alt by lia. by rewrite Nat.sub_diag.
Qed.

Lemma fill_row_spec (pre post : list (list string)) entry :
  fill_row (pre ++ replicate 4 "" :: post) (length pre, entry)
  = if has_refDoc (length pre, entry)
    then Ok (pre ++ history_row entry :: post)
    else Raise (KeyError "refDoc").
Proof.
  unfold fill_row, has_refDoc, get_refDoc, history_row, changes_cell.
  rewrite set_cell_middle by (simpl; lia). rewrite result_bind_ok.
  rewrite set_cell_middle by (simpl; lia). rewrite result_bind_ok.
  rewrite set_cell_middle by (simpl; lia). rewrite result_bind_ok.
  simpl. destruct (History.refDoc entry) as [ref|]; simpl; [|done].
  rewrite ?result_bind_ok. by rewrite set_cell_middle by (simpl; lia).
Qed.

Lemma forallb_enumerate {A} (f : A → bool) (g : nat * A → bool) (xs : list A) k :
  (∀ i x, g (i, x) = f x) → forallb g (enumerate k xs) = forallb f xs.
Proof.
  intros Hg. revert k. induction xs as [|x xs IH]; intros k; simpl; [done|].
  by rewrite Hg, IH.
Qed.

Lemma fill_rows_spec (entries : list History.t) (pre : list (list string)) :
  for_each fill_row (enumerate (length pre) entries)
           (pre ++ replicate (length entries) (replicate 4 ""))
  = if forallb (λ entry, bool_decide (is_Some (History.refDoc entry))) entries
    then Ok (pre ++ (history_row <$> entries))
    else Raise (KeyError "refDoc").
Proof.
  revert pre. induction entries as [|entry entries IH]; intros pre.
  - done.
  - cbn [enumerate for_each length forallb]. rewrite replicate_S.
    rewrite fill_row_spec. unfold has_refDoc. cbn [snd].
    destruct (bool_decide _); cbn [andb]; [|done]. rewrite result_bind_ok.
    specialize (IH (pre ++ [history_row entry])).
    rewrite length_app in IH. simpl in IH. rewrite Nat.add_1_r in IH.
    rewrite <- !app_assoc in IH. simpl in IH. exact IH.
Qed.

Lemma header_row_spec (rest : list (list string)) :
  for_each (λ t '(i, header_text), set_cell t 0 i header_text)
           (enumerate 0 headers) (replicate 4 "" :: rest)
  = Ok (headers :: rest).
Proof. reflexivity. Qed.

Lemma version_history_section_spec a doc n :
  version_history_section a (doc, n)
  = if refs_ok a
    then Ok (doc ++ Heading (numbered n "FULL VERSION HISTORY") :: version_history_body a)
    else Raise (KeyError "refDoc").
Proof.
  unfold version_history_section, version_history_body, refs_ok, add_heading, add_table.
  destruct (fullVersionHistory a) as [|e es] eqn:Hes.
  - done.
  - change (truthy (e :: es)) with true. cbv iota.
    rewrite Nat.add_1_r. rewrite replicate_S.
    rewrite header_row_spec, result_bind_ok.
    pose proof (fill_rows_spec (e :: es) [headers]) as H.
    change (length [headers]) with 1 in H. cbn [app] in H. rewrite H.
    destruct (forallb _ _); [|done].
    rewrite result_bind_ok. by rewrite <- !app_assoc.
Qed.

(** ** The whole function against the layout *)

Lemma numbered_1_purpose : "1. PURPOSE" = numbered 1 "PURPOSE".
Proof. vm_compute. reflexivity. Qed.

Lemma numbered_2_whats_new v :
  "2. WHAT'S NEW IN VERSION " +:+ v = numbered 2 ("WHAT'S NEW IN VERSION " +:+ v).
Proof. reflexivity. Qed.

Lemma create_sp_doc_spec a :
  create_sp_doc a
  = if texts_ok a
    then if refs_ok a then Ok (assemble a) else Raise (KeyError "refDoc")
    else Raise IndexError.
Proof.
  unfold create_sp_doc, texts_ok, assemble, emitted, canonical,
    performance_notes_section, error_handling_section.
  rewrite recent_changes_block_spec, result_bind_ok, purpose_section_spec.
  destruct (truthy (purpose_text a)); [|done]. rewrite result_bind_ok.
  rewrite whats_new_section_spec, result_bind_ok.
  rewrite numbered_1_purpose, numbered_2_whats_new.
  destruct (whats_new_gate a).
  all: rewrite parameters_section_spec.
  all: destruct (forallb param_ok _); [|done]; rewrite result_bind_ok.
  all: rewrite logic_flow_section_spec.
  all: destruct (logic_flow_ok a); [|done]; rewrite result_bind_ok.
  all: rewrite dependencies_section_spec, result_bind_ok.
  all: destruct (dependencies_gate a).
  all: rewrite usage_examples_section_spec.
  all: destruct (forallb example_ok _); [|done]; rewrite result_bind_ok.
  all: rewrite prose_section_spec, result_bind_ok.
  all: fold (performance_notes_gate a); destruct (performance_notes_gate a).
  all: rewrite prose_section_spec, result_bind_ok.
  all: fold (error_handling_gate a); destruct (error_handling_gate a).
  all: rewrite version_history_section_spec.
  all: destruct (refs_ok a); [|done].
  all: cbn [andb]; f_equal.
  all: cbn [List.filter sec_include enumerate flat_map render_sec fst snd
            sec_title sec_body prose_body Nat.add app].
  all: rewrite <- ?app_assoc; cbn [app]; rewrite ?app_nil_r; reflexivity.
Qed.

(** ** Reading a numbered title back *)

Lemma digit_val_pretty_N_char (d : N) :
  (d < 10)%N → digit_val (pretty_N_char d) = Some d.
Proof.
  intros Hd.
  assert (d = 0 ∨ d = 1 ∨ d = 2 ∨ d = 3 ∨ d = 4 ∨ d = 5 ∨ d = 6 ∨ d = 7
          ∨ d = 8 ∨ d = 9)%N as Hcases by lia.
  destruct_or!; subst d; reflexivity.
Qed.

Lemma pretty_N_go_append (x : N) (s r : string) :
  pretty_N_go x s +:+ r = pretty_N_go x (s +:+ r).
Proof.
  revert s. induction (N.lt_wf_0 x) as [x _ IH]; intros s.
  destruct (decide (x = 0)%N) as [->|Hx]; [by rewrite !pretty_N_go_0|].
  rewrite (pretty_N_go_step x s), (pretty_N_go_step x (s +:+ r)) by lia.
  rewrite IH by (apply N.div_lt; lia). reflexivity.
Qed.

Lemma pretty_N_go_head (x : N) (s : string) :
  (0 < x)%N →
  ∃ c s', pretty_N_go x s = String c s' ∧ is_Some (digit_val c).
Proof.
  revert s. induction (N.lt_wf_0 x) as [x _ IH]; intros s Hx.
  rewrite pretty_N_go_step by done.
  destruct (decide (x `div` 10 = 0)%N) as [Hq|Hq].
  - rewrite Hq, pretty_N_go_0. eexists _, _. split; [done|].
    rewrite digit_val_pretty_N_char; [done|]. by apply N.mod_lt.
  - apply IH; [apply N.div_lt; lia|]. apply N.neq_0_lt_0. exact Hq.
Qed.

Lemma read_digits_pretty_N_go (x : N) (s : string) :
  ∃ k, ∀ acc,
    read_digits acc (pretty_N_go x s) = read_digits (acc * 10 ^ k + x) s.
Proof.
  revert s. induction (N.lt_wf_0 x) as [x _ IH]; intros s.
  destruct (decide (x = 0)%N) as [->|Hx].
  - exists 0%N. intros acc. rewrite pretty_N_go_0. f_equal. lia.
  - rewrite pretty_N_go_step by lia.
    destruct (IH (x `div` 10)%N) with (s := String (pretty_N_char (x `mod` 10)) s)
      as [k Hk]; [apply N.div_lt; lia|].
    exists (k + 1)%N. intros acc. rewrite Hk. cbn [read_digits].
    rewrite digit_val_pretty_N_char by (by apply N.mod_lt).
    f_equal. rewrite N.pow_add_r, N.pow_1_r.
    pose proof (N.div_mod x 10). lia.
Qed.

Lemma parse_heading_intro h c s' n t :
  h = String c s' → is_Some (digit_val c) →
  read_digits 0 h = (n, String "." (String " " t)) →
  parse_heading h = Some (N.to_nat n, t).
Proof.
  intros -> [v Hv] Hr. unfold parse_heading. rewrite Hv, Hr. done.
Qed.

Lemma parse_heading_numbered (n : nat) (t : string) :
  parse_heading (numbered n t) = Some (n, t).
Proof.
  unfold numbered, pretty, pretty_nat, pretty, pretty_N.
  destruct (decide (N.of_nat n = 0)%N) as [Hn|Hn].
  - assert (n = 0) as -> by lia. reflexivity.
  - rewrite pretty_N_go_append. change ("" +:+ ?r) with r.
    destruct (pretty_N_go_head (N.of_nat n) (". " +:+ t)) as (c & s' & Hh & Hc);
      [lia|].
    rewrite <- (Nat2N.id n) at 2.
    apply (parse_heading_intro _ c s'); [done..|].
    destruct (read_digits_pretty_N_go (N.of_nat n) (". " +:+ t)) as [k Hk].
    rewrite Hk, N.mul_0_l, N.add_0_l. reflexivity.
Qed.

Lemma parse_heading_recent : parse_heading "5 MOST RECENT CHANGES" = None.
Proof. reflexivity. Qed.

(** ** Section titles never occur inside a body *)

Lemma headings_app (d1 d2 : Doc) : headings (d1 ++ d2) = headings d1 ++ headings d2.
Proof. apply omap_app. Qed.

Lemma headings_flat_map {A} (f : A → list Block) (xs : list A) :
  (∀ x, headings (f x) = []) → headings (flat_map f xs) = [].
Proof.
  intros Hf. induction xs as [|x xs IH]; simpl; [done|].
  by rewrite headings_app, Hf, IH.
Qed.

Lemma headings_fmap {A} (f : A → Block) (xs : list A) :
  (∀ x, headings [f x] = []) → headings (f <$> xs) = [].
Proof.
  intros Hf. rewrite <- flat_map_singleton. by apply headings_flat_map.
Qed.

Lemma headings_recent_body a : headings (recent_body a) = [].
Proof.
  unfold recent_body. rewrite headings_app.
  destruct (truthy (recentChanges a)); [|done].
  by rewrite headings_fmap.
Qed.

Lemma headings_parameters_body a : headings (parameters_body a) = [].
Proof.
  unfold parameters_body. rewrite headings_app.
  destruct (truthy (parameters a)); [|done].
  rewrite headings_flat_map; [done|].
  intros p. unfold param_blocks.
  destruct (Param.defaultValue p) as [v|]; [destruct (truthy v)|]; done.
Qed.

Lemma headings_logic_flow_body a : headings (logic_flow_body a) = [].
Proof.
  unfold logic_flow_body. rewrite headings_app.
  destruct (logicFlow a); [|done]. by rewrite headings_flat_map.
Qed.

Lemma headings_dependency_blocks deps key label :
  headings (dependency_blocks deps key label) = [].
Proof.
  unfold dependency_blocks. destruct (deps !! key) as [items|]; [|done].
  destruct (truthy items); [|done].
  change (Subheader label :: ?l) with ([Subheader label] ++ l).
  rewrite headings_app. by rewrite headings_fmap.
Qed.

Lemma headings_dependencies_body a : headings (dependencies_body a) = [].
Proof.
  unfold dependencies_body. by rewrite !headings_app, !headings_dependency_blocks.
Qed.

Lemma headings_usage_examples_body a : headings (usage_examples_body a) = [].
Proof.
  unfold usage_examples_body. rewrite headings_app.
  rewrite headings_flat_map; [done|].
  intros [i e]. unfold example_blocks. simpl.
  by destruct (Example.explanation e).
Qed.

Lemma headings_version_history_body a : headings (version_history_body a) = [].
Proof. unfold version_history_body. by destruct (truthy _). Qed.

Lemma headings_canonical a :
  Forall (λ s, headings (sec_body s) = []) (canonical a).
Proof.
  unfold canonical. repeat constructor; cbn [sec_body];
    auto using headings_parameters_body, headings_logic_flow_body,
      headings_dependencies_body, headings_usage_examples_body,
      headings_version_history_body.
Qed.

Lemma Forall_list_filter {A} (P : A → Prop) (f : A → bool) (xs : list A) :
  Forall P xs → Forall P (List.filter f xs).
Proof.
  induction 1 as [|x xs Hx _ IH]; simpl; [done|].
  destruct (f x); [by constructor|done].
Qed.

Lemma headings_emitted a : Forall (λ s, headings (sec_body s) = []) (emitted a).
Proof. apply Forall_list_filter, headings_canonical. Qed.

(** ** Cutting the layout back into sections *)

Lemma split_sections_no_headings (pre d : Doc) :
  headings pre = [] →
  split_sections (pre ++ d) = (pre ++ (split_sections d).1, (split_sections d).2).
Proof.
  induction pre as [|b pre IH]; intros Hpre; simpl.
  - by destruct (split_sections d).
  - destruct b; try discriminate Hpre.
    all: rewrite IH by exact Hpre; reflexivity.
Qed.

Lemma split_sections_render (k : nat) (ss : list Sec) :
  Forall (λ s, headings (sec_body s) = []) ss →
  split_sections (flat_map render_sec (enumerate k ss))
  = ([], sec_entry <$> enumerate k ss).
Proof.
  intros Hss. revert k. induction Hss as [|s ss Hs _ IH]; intros k; [done|].
  cbn [enumerate flat_map fmap list_fmap]. unfold render_sec at 1.
  cbn [fst snd app split_sections].
  rewrite split_sections_no_headings by exact Hs. rewrite IH.
  cbn [fst snd]. by rewrite app_nil_r.
Qed.

Lemma sections_assemble a :
  sections (assemble a)
  = ("5 MOST RECENT CHANGES", recent_body a) :: (sec_entry <$> enumerate 1 (emitted a)).
Proof.
  unfold sections, assemble, header_block, add_divider.
  cbn [app split_sections].
  rewrite split_sections_no_headings by apply headings_recent_body.
  rewrite split_sections_render by apply headings_emitted.
  cbn [fst snd]. by rewrite app_nil_r.
Qed.

Lemma headings_sections (d : Doc) : headings d = (sections d).*1.
Proof.
  unfold sections. induction d as [|b d IH]; [done|].
  destruct b; cbn [split_sections headings omap list_omap];
    fold (headings d); rewrite IH; by destruct (split_sections d).
Qed.

Lemma enumerate_fst {A} (k : nat) (xs : list A) :
  (enumerate k xs).*1 = seq k (length xs).
Proof. revert k. induction xs as [|x xs IH]; intros k; simpl; [done|]. by rewrite IH. Qed.

Lemma enumerate_snd {A} (k : nat) (xs : list A) : (enumerate k xs).*2 = xs.
Proof. revert k. induction xs as [|x xs IH]; intros k; simpl; [done|]. by rewrite IH. Qed.

Lemma enumerate_length {A} (k : nat) (xs : list A) :
  length (enumerate k xs) = length xs.
Proof. revert k. induction xs as [|x xs IH]; intros k; simpl; [done|]. by rewrite IH. Qed.

Lemma enumerate_lookup {A} (k i : nat) (xs : list A) :
  enumerate k xs !! i = (λ x, (k + i, x)) <$> xs !! i.
Proof.
  revert k i. induction xs as [|x xs IH]; intros k [|i]; simpl; try done.
  - by rewrite Nat.add_0_r.
  - rewrite IH. by rewrite Nat.add_succ_r.
Qed.

Lemma numbered_sections_assemble a :
  numbered_sections (assemble a)
  = (λ ix, (ix.1, sec_title ix.2)) <$> enumerate 1 (emitted a).
Proof.
  unfold numbered_sections. rewrite headings_sections, sections_assemble.
  cbn [fmap list_fmap fst omap list_omap]. rewrite parse_heading_recent.
  generalize (enumerate 1 (emitted a)). intros l.
  induction l as [|[i s] l IH]; [done|].
  cbn [fmap list_fmap omap list_omap sec_entry fst snd].
  rewrite parse_heading_numbered. fold (@fmap list _) in *. fold (@omap list _) in *.
  by rewrite IH.
Qed.

Lemma section_numbers_assemble a :
  section_numbers (assemble a) = seq 1 (length (emitted a)).
Proof.
  unfold section_numbers. rewrite numbered_sections_assemble.
  rewrite <- list_fmap_compose. apply enumerate_fst.
Qed.

Lemma section_titles_assemble a :
  section_titles (assemble a) = sec_title <$> emitted a.
Proof.
  unfold section_titles. rewrite numbered_sections_assemble.
  rewrite <- list_fmap_compose.
  rewrite <- (enumerate_snd 1 (emitted a)) at 2.
  by rewrite <- list_fmap_compose.
Qed.

Lemma emitted_length a : length (emitted a) = 5 + gate_count a.
Proof.
  unfold emitted, canonical, gate_count. cbn [List.filter sec_include].
  destruct (whats_new_gate a), (dependencies_gate a),
    (performance_notes_gate a), (error_handling_gate a); reflexivity.
Qed.

Lemma has_title_recent title body :
  has_title title ("5 MOST RECENT CHANGES", body) = false.
Proof. reflexivity. Qed.

Lemma has_title_sec_entry title ix :
  has_title title (sec_entry ix) = String.eqb (sec_title ix.2) title.
Proof. unfold has_title, sec_entry. cbn [fst]. by rewrite parse_heading_numbered. Qed.

Lemma section_body_assemble title a :
  section_body title (assemble a)
  = sec_body <$> List.find (λ s, String.eqb (sec_title s) title) (emitted a).
Proof.
  unfold section_body. rewrite sections_assemble.
  cbn [List.find]. rewrite has_title_recent.
  generalize (enumerate 1 (emitted a)) (enumerate_snd 1 (emitted a)).
  generalize (emitted a). intros ss l <-.
  induction l as [|[i s] l IH]; [done|].
  cbn [fmap list_fmap List.find]. rewrite has_title_sec_entry. cbn [snd].
  destruct (String.eqb (sec_title s) title); [done|]. exact IH.
Qed.

(** ** When [create_sp_doc] returns, and what *)

Lemma create_sp_doc_renderable a :
  renderable a = true → create_sp_doc a = Ok (assemble a).
Proof.
  unfold renderable. rewrite create_sp_doc_spec.
  by destruct (texts_ok a), (refs_ok a).
Qed.


Lemma emitted_titles a :
  sec_title <$> emitted a
  = ["PURPOSE"]
    ++ (if whats_new_gate a then ["WHAT'S NEW IN VERSION " +:+ version a] else [])
    ++ ["PARAMETERS"; "LOGIC FLOW"]
    ++ (if dependencies_gate a then ["DEPENDENCIES"] else [])
    ++ ["USAGE EXAMPLES"]
    ++ (if performance_notes_gate a then ["PERFORMANCE NOTES"] else [])
    ++ (if error_handling_gate a then ["ERROR HANDLING"] else [])
    ++ ["FULL VERSION HISTORY"].
Proof.
  unfold emitted, canonical. cbn [List.filter sec_include].
  destruct (whats_new_gate a), (dependencies_gate a),
    (performance_notes_gate a), (error_handling_gate a); reflexivity.
Qed.

Lemma truthy_string_true (s : string) : truthy s = true ↔ s ≠ "".
Proof. destruct s; cbv [truthy string_truthy]; split; congruence. Qed.

Lemma truthy_option_string_true (o : option string) :
  truthy o = true ↔ ∃ s, o = Some s ∧ s ≠ "".
Proof.
  destruct o as [s|]; simpl.
  - change (truthy (Some s)) with (truthy s). rewrite truthy_string_true.
    split; [eauto|]. by intros (s' & [= <-] & Hs).
  - split; [done|]. by intros (s' & ? & _).
Qed.

Lemma truthy_dict_true {V} (o : option (gmap string V)) :
  truthy o = true ↔ ∃ m, o = Some m ∧ m ≠ ∅.
Proof.
  destruct o as [m|]; simpl.
  - change (truthy (Some m)) with (negb (bool_decide (m = ∅))).
    rewrite negb_true_iff, bool_decide_eq_false.
    split; [eauto|]. by intros (m' & [= <-] & Hm).
  - split; [done|]. by intros (m' & ? & _).
Qed.

Lemma dependencies_gate_true a :
  dependencies_gate a = true
  ↔ (30 < complexityScore a)%Z ∧ ∃ m, dependencies a = Some m ∧ m ≠ ∅.
Proof.
  unfold dependencies_gate.
  by rewrite andb_true_iff, Z.ltb_lt, truthy_dict_true.
Qed.

Lemma prose_gate_true (threshold : Z) (text : option string) a :
  (threshold <? complexityScore a)%Z && truthy text = true
  ↔ (threshold < complexityScore a)%Z ∧ ∃ s, text = Some s ∧ s ≠ "".
Proof. by rewrite andb_true_iff, Z.ltb_lt, truthy_option_string_true. Qed.

(** Membership of a fixed title in the list of emitted titles. *)
Ltac title_membership :=
  rewrite emitted_titles;
  destruct (whats_new_gate _), (dependencies_gate _),
    (performance_notes_gate _), (error_handling_gate _);
  cbn [app]; rewrite ?elem_of_cons, ?elem_of_nil;
  split; intros; destruct_or?; try discriminate; try done; auto 12.

Lemma dependencies_title a :
  "DEPENDENCIES" ∈ sec_title <$> emitted a ↔ dependencies_gate a = true.
Proof. title_membership. Qed.

Lemma performance_notes_title a :
  "PERFORMANCE NOTES" ∈ sec_title <$> emitted a ↔ performance_notes_gate a = true.
Proof. title_membership. Qed.

Lemma error_handling_title a :
  "ERROR HANDLING" ∈ sec_title <$> emitted a ↔ error_handling_gate a = true.
Proof. title_membership. Qed.

(** The body found under a fixed title of the layout. *)
Ltac section_lookup :=
  rewrite section_body_assemble; unfold emitted, canonical;
  cbn [List.filter sec_include];
  destruct (whats_new_gate _), (dependencies_gate _),
    (performance_notes_gate _), (error_handling_gate _);
  reflexivity.

Lemma section_body_dependencies a :
  section_body "DEPENDENCIES" (assemble a)
  = if dependencies_gate a then Some (dependencies_body a) else None.
Proof. section_lookup. Qed.

Lemma section_body_parameters a :
  section_body "PARAMETERS" (assemble a) = Some (parameters_body a).
Proof. section_lookup. Qed.



Lemma section_body_version_history a :
  section_body "FULL VERSION HISTORY" (assemble a) = Some (version_history_body a).
Proof. section_lookup. Qed.

Lemma section_body_purpose a :
  section_body "PURPOSE" (assemble a) = Some [Paragraph (purpose_text a); Divider].
Proof. section_lookup. Qed.

Lemma dependency_blocks_falsy (m : gmap string (list string)) key label :
  truthy (m !! key) = false → dependency_blocks m key label = [].
Proof.
  unfold dependency_blocks. destruct (m !! key) as [items|]; [|done].
  intros H. change (truthy items = false) in H. by rewrite H.
Qed.

(** ** C1: the Dependencies gate *)

(** C1, as stated, fails: with score 31 and a dependencies mapping whose
    two lists are empty, the header "5. DEPENDENCIES" is emitted although
    neither list is non-empty. *)
Lemma dependencies_claim_fails : ¬ dependencies_claim empty_lists_args.
Proof.
  intros Hclaim.
  destruct (Hclaim (assemble empty_lists_args)) as [Hgate _].
  { by vm_compute. }
  discriminate Hgate. vm_compute. set_solver.
Qed.

(** C1, amended: the Dependencies section is emitted exactly when the score
    is above 30 and the dependencies mapping is truthy, that is present
    with at least one key; when both of its lists are empty or absent the
    section is still emitted and holds the closing divider alone. *)
Theorem dependencies_section_gate (a : Args) :
  renderable a = true →
  ∃ d, create_sp_doc a = Ok d
    ∧ ("DEPENDENCIES" ∈ section_titles d
       ↔ (30 < complexityScore a)%Z ∧ ∃ m, dependencies a = Some m ∧ m ≠ ∅)
    ∧ (∀ m : gmap string (list string),
         (30 < complexityScore a)%Z → dependencies a = Some m → m ≠ ∅ →
         truthy (m !! "tables") = false → truthy (m !! "procedures") = false →
         section_body "DEPENDENCIES" d = Some [Divider]).
Proof.
  intros Hr. exists (assemble a). split; [by apply create_sp_doc_renderable|].
  split.
  - by rewrite section_titles_assemble, dependencies_title, dependencies_gate_true.
  - intros m Hscore Hdeps Hm Ht Hp.
    rewrite section_body_dependencies.
    assert (dependencies_gate a = true) as -> by (apply dependencies_gate_true; eauto).
    unfold dependencies_body. rewrite Hdeps.
    change (default ∅ (Some m)) with m.
    by rewrite !dependency_blocks_falsy.
Qed.

Lemma dependencies_section_gate_witness :
  renderable empty_lists_args = true
  ∧ ∃ d, create_sp_doc empty_lists_args = Ok d
      ∧ ("DEPENDENCIES" ∈ section_titles d
         ↔ (30 < complexityScore empty_lists_args)%Z
           ∧ ∃ m, dependencies empty_lists_args = Some m ∧ m ≠ ∅)
      ∧ (∀ m : gmap string (list string),
           (30 < complexityScore empty_lists_args)%Z →
           dependencies empty_lists_args = Some m → m ≠ ∅ →
           truthy (m !! "tables") = false → truthy (m !! "procedures") = false →
           section_body "DEPENDENCIES" d = Some [Divider]).
Proof.
  split; [reflexivity|]. apply dependencies_section_gate. reflexivity.
Defined.

(** ** C2: no validation *)







(** ** C3: contiguous numbering *)

(** C3, as stated, fails: the sample call satisfies three gates, so the
    claimed last number is 10, but the numbered titles run from 1 to 8. *)
Lemma numbering_claim_fails : ¬ numbering_claim sample.
Proof.
  intros Hclaim. specialize (Hclaim _ sample_layout).
  vm_compute in Hclaim. discriminate Hclaim.
Qed.

Lemma sec_entry_titles (k : nat) (ss : list Sec) :
  (sec_entry <$> enumerate k ss).*1
  = zip_with numbered (seq k (length ss)) (sec_title <$> ss).
Proof.
  revert k. induction ss as [|s ss IH]; intros k; [done|].
  cbn [enumerate fmap list_fmap length seq zip_with sec_entry fst snd].
  f_equal. apply IH.
Qed.

(** C3, amended: the numbered section titles carry exactly the numbers
    1..K in order, where K is 5 (Purpose, Parameters, Logic Flow, Usage
    Examples, Full Version History) plus the number of gates that hold
    (What's New, Dependencies, Performance Notes, Error Handling); the only
    other title, "5 MOST RECENT CHANGES", comes first and has no number. *)
Theorem section_numbers_contiguous (a : Args) :
  renderable a = true →
  ∃ d, create_sp_doc a = Ok d
    ∧ section_numbers d = seq 1 (5 + gate_count a)
    ∧ length (section_titles d) = 5 + gate_count a
    ∧ headings d
      = "5 MOST RECENT CHANGES"
        :: zip_with numbered (section_numbers d) (section_titles d).
Proof.
  intros Hr. exists (assemble a). split; [by apply create_sp_doc_renderable|].
  rewrite section_numbers_assemble, section_titles_assemble, emitted_length.
  repeat split.
  - by rewrite length_fmap, emitted_length.
  - rewrite headings_sections, sections_assemble. cbn [fmap list_fmap fst].
    f_equal. fold (@fmap list _). rewrite sec_entry_titles.
    by rewrite emitted_length.
Qed.

Lemma section_numbers_contiguous_witness :
  renderable sample = true
  ∧ ∃ d, create_sp_doc sample = Ok d
      ∧ section_numbers d = seq 1 (5 + gate_count sample)
      ∧ length (section_titles d) = 5 + gate_count sample
      ∧ headings d
        = "5 MOST RECENT CHANGES"
          :: zip_with numbered (section_numbers d) (section_titles d).
Proof.
  split; [reflexivity|]. apply section_numbers_contiguous. reflexivity.
Defined.

(** ** C4: the version-history section *)

(** C4, as stated, fails: with an empty history the section holds no table
    at all, not a header row without data rows. *)
Lemma history_table_claim_fails : ¬ history_table_claim no_history_args.
Proof.
  intros Hclaim.
  destruct (Hclaim (assemble no_history_args)) as (style & rows & Hbody & _).
  { by vm_compute. }
  vm_compute in Hbody. discriminate Hbody.
Qed.

Lemma enumerate_app {A} (k : nat) (xs ys : list A) :
  enumerate k (xs ++ ys) = enumerate k xs ++ enumerate (k + length xs) ys.
Proof.
  revert k. induction xs as [|x xs IH]; intros k; simpl.
  - by rewrite Nat.add_0_r.
  - rewrite IH. by rewrite Nat.add_succ_r.
Qed.

Lemma assemble_ends_with_history a :
  ∃ pre,
    assemble a
    = pre ++ Heading (numbered (5 + gate_count a) "FULL VERSION HISTORY")
             :: version_history_body a.
Proof.
  unfold assemble, emitted.
  change (canonical a)
    with (take 8 (canonical a)
          ++ [mkSec true "FULL VERSION HISTORY" (version_history_body a)]).
  rewrite List.filter_app, enumerate_app, flat_map_app.
  cbn [List.filter sec_include enumerate flat_map render_sec fst snd sec_title sec_body].
  assert (1 + length (List.filter sec_include (take 8 (canonical a)))
          = 5 + gate_count a) as ->.
  { unfold canonical, gate_count. cbn [take List.filter sec_include].
    destruct (whats_new_gate a), (dependencies_gate a),
      (performance_notes_gate a), (error_handling_gate a); reflexivity. }
  rewrite app_nil_r.
  exists (header_block a []
          ++ Heading "5 MOST RECENT CHANGES" :: recent_body a
          ++ flat_map render_sec
               (enumerate 1 (List.filter sec_include (take 8 (canonical a))))).
  generalize (header_block a []) (recent_body a)
    (flat_map render_sec
       (enumerate 1 (List.filter sec_include (take 8 (canonical a))))).
  intros h r f. rewrite <- app_assoc. cbn [app]. by rewrite <- app_assoc.
Qed.

(** C4, amended: the document ends with the numbered title of the Full
    Version History section, which carries the last number, followed by
    nothing when the history is empty and otherwise by one table: the
    header row Version, Date, Changed By, Changes, then one row per entry
    in the given order. *)
Theorem version_history_last (a : Args) :
  renderable a = true →
  ∃ d pre,
    create_sp_doc a = Ok d
    ∧ d = pre ++ Heading (numbered (5 + gate_count a) "FULL VERSION HISTORY")
                 :: match fullVersionHistory a with
                    | [] => []
                    | _ :: _ =>
                        [Table "Light Grid Accent 1"
                           (["Version"; "Date"; "Changed By"; "Changes"]
                            :: (history_row <$> fullVersionHistory a))]
                    end
    ∧ last (section_numbers d) = Some (5 + gate_count a).
Proof.
  intros Hr. destruct (assemble_ends_with_history a) as [pre Hpre].
  exists (assemble a), pre. split; [by apply create_sp_doc_renderable|]. split.
  - rewrite Hpre. unfold version_history_body. by destruct (fullVersionHistory a).
  - rewrite section_numbers_assemble, emitted_length.
    replace (5 + gate_count a) with (S (4 + gate_count a)) by lia.
    rewrite seq_S, last_snoc. f_equal.
Qed.

Lemma version_history_last_witness :
  renderable no_history_args = true
  ∧ ∃ d pre,
      create_sp_doc no_history_args = Ok d
      ∧ d = pre ++ Heading (numbered (5 + gate_count no_history_args)
                              "FULL VERSION HISTORY")
                   :: match fullVersionHistory no_history_args with
                      | [] => []
                      | _ :: _ =>
                          [Table "Light Grid Accent 1"
                             (["Version"; "Date"; "Changed By"; "Changes"]
                              :: (history_row <$> fullVersionHistory no_history_args))]
                      end
      ∧ last (section_numbers d) = Some (5 + gate_count no_history_args).
Proof.
  split; [reflexivity|]. apply version_history_last. reflexivity.
Defined.

(** ** C5: the two shapes of logicFlow *)

Lemma count_kind_app k (xs ys : list Block) :
  count_kind k (xs ++ ys) = count_kind k xs + count_kind k ys.
Proof. unfold count_kind. by rewrite List.filter_app, length_app. Qed.





(** ** C6: the five most recent changes *)

Lemma bullets_fmap {A} (f : A → string) (xs : list A) :
  bullets ((λ x, Bullet (f x)) <$> xs) = f <$> xs.
Proof. induction xs as [|x xs IH]; [done|]. simpl. f_equal. exact IH. Qed.

Lemma bullets_app (xs ys : list Block) : bullets (xs ++ ys) = bullets xs ++ bullets ys.
Proof. apply omap_app. Qed.

Lemma bullets_recent_body a :
  bullets (recent_body a) = change_line <$> take 5 (recentChanges a).
Proof.
  unfold recent_body. rewrite bullets_app.
  destruct (recentChanges a) as [|c cs].
  - done.
  - change (truthy (c :: cs)) with true. cbv iota.
    rewrite bullets_fmap. by rewrite app_nil_r.
Qed.

(** C6: the block under "5 MOST RECENT CHANGES" has one bullet for each of
    the first five changes, in the given order, so min(5, len) of them,
    each reading "<date> - <summary> (<refDoc>)"; with an empty refDoc the
    bullet ends in "()". *)
Theorem recent_changes_truncated (a : Args) :
  renderable a = true →
  ∃ d body,
    create_sp_doc a = Ok d
    ∧ sections d !! 0 = Some ("5 MOST RECENT CHANGES", body)
    ∧ bullets body
      = (λ c, Change.date c +:+ " - " +:+ Change.summary c
              +:+ " (" +:+ Change.refDoc c +:+ ")")
        <$> take 5 (recentChanges a)
    ∧ length (bullets body) = min 5 (length (recentChanges a))
    ∧ ∀ c, c ∈ take 5 (recentChanges a) → Change.refDoc c = "" →
           Change.date c +:+ " - " +:+ Change.summary c +:+ " ()" ∈ bullets body.
Proof.
  intros Hr. exists (assemble a), (recent_body a).
  split; [by apply create_sp_doc_renderable|].
  split; [by rewrite sections_assemble|].
  rewrite bullets_recent_body. split; [done|]. split.
  - by rewrite length_fmap, length_take.
  - intros c Hc Href. apply list_elem_of_fmap. exists c. split; [|done].
    unfold change_line. by rewrite Href.
Qed.

Lemma recent_changes_truncated_witness :
  renderable eight_changes_args = true
  ∧ ∃ d body,
      create_sp_doc eight_changes_args = Ok d
      ∧ sections d !! 0 = Some ("5 MOST RECENT CHANGES", body)
      ∧ bullets body
        = (λ c, Change.date c +:+ " - " +:+ Change.summary c
                +:+ " (" +:+ Change.refDoc c +:+ ")")
          <$> take 5 (recentChanges eight_changes_args)
      ∧ length (bullets body) = min 5 (length (recentChanges eight_changes_args))
      ∧ ∀ c, c ∈ take 5 (recentChanges eight_changes_args) →
             Change.refDoc c = "" →
             Change.date c +:+ " - " +:+ Change.summary c +:+ " ()"
             ∈ bullets body.
Proof.
  split; [reflexivity|]. apply recent_changes_truncated. reflexivity.
Defined.

Example eight_changes_five_bullets :
  (λ d, length (bullets (default [] (snd <$> sections d !! 0))))
    <$> create_sp_doc eight_changes_args = Ok 5.
Proof. vm_compute. reflexivity. Qed.

(** ** C7: Performance Notes and Error Handling *)

(** C7: Performance Notes is emitted exactly when the score is above 50 and
    performanceNotes is a non-empty string, Error Handling exactly when the
    score is above 40 and errorHandling is a non-empty string; at the
    boundaries, with the text present, 50 and 40 leave the section out and
    51 and 41 bring it in. *)
Theorem prose_section_gates (a : Args) :
  renderable a = true →
  (∃ d, create_sp_doc a = Ok d
     ∧ ("PERFORMANCE NOTES" ∈ section_titles d
        ↔ (50 < complexityScore a)%Z
          ∧ ∃ s, performanceNotes a = Some s ∧ s ≠ "")
     ∧ ("ERROR HANDLING" ∈ section_titles d
        ↔ (40 < complexityScore a)%Z
          ∧ ∃ s, errorHandling a = Some s ∧ s ≠ ""))
  ∧ (∀ z, ∃ d, create_sp_doc (with_score z a) = Ok d
       ∧ (truthy (performanceNotes a) = true →
          ("PERFORMANCE NOTES" ∈ section_titles d ↔ (51 ≤ z)%Z))
       ∧ (truthy (errorHandling a) = true →
          ("ERROR HANDLING" ∈ section_titles d ↔ (41 ≤ z)%Z))).
Proof.
  intros Hr. split.
  - exists (assemble a). split; [by apply create_sp_doc_renderable|].
    rewrite section_titles_assemble.
    rewrite performance_notes_title, error_handling_title.
    unfold performance_notes_gate, error_handling_gate.
    by rewrite !prose_gate_true.
  - intros z. exists (assemble (with_score z a)).
    split; [by apply create_sp_doc_renderable|].
    rewrite section_titles_assemble.
    rewrite performance_notes_title, error_handling_title.
    unfold performance_notes_gate, error_handling_gate.
    cbn [with_score complexityScore performanceNotes errorHandling].
    split; intros ->; rewrite andb_true_r, Z.ltb_lt; lia.
Qed.

Lemma prose_section_gates_witness :
  renderable sample = true
  ∧ (∃ d, create_sp_doc sample = Ok d
       ∧ ("PERFORMANCE NOTES" ∈ section_titles d
          ↔ (50 < complexityScore sample)%Z
            ∧ ∃ s, performanceNotes sample = Some s ∧ s ≠ "")
       ∧ ("ERROR HANDLING" ∈ section_titles d
          ↔ (40 < complexityScore sample)%Z
            ∧ ∃ s, errorHandling sample = Some s ∧ s ≠ ""))
  ∧ (∀ z, ∃ d, create_sp_doc (with_score z sample) = Ok d
       ∧ (truthy (performanceNotes sample) = true →
          ("PERFORMANCE NOTES" ∈ section_titles d ↔ (51 ≤ z)%Z))
       ∧ (truthy (errorHandling sample) = true →
          ("ERROR HANDLING" ∈ section_titles d ↔ (41 ≤ z)%Z))).
Proof.
  split; [reflexivity|]. apply prose_section_gates. reflexivity.
Defined.

Example performance_notes_boundary :
  section_titles <$> create_sp_doc (with_score 50 sample)
  = Ok ["PURPOSE"; "WHAT'S NEW IN VERSION 1.2"; "PARAMETERS"; "LOGIC FLOW";
        "DEPENDENCIES"; "USAGE EXAMPLES"; "ERROR HANDLING"; "FULL VERSION HISTORY"]
  ∧ section_titles <$> create_sp_doc (with_score 51 sample)
    = Ok ["PURPOSE"; "WHAT'S NEW IN VERSION 1.2"; "PARAMETERS"; "LOGIC FLOW";
          "DEPENDENCIES"; "USAGE EXAMPLES"; "PERFORMANCE NOTES"; "ERROR HANDLING";
          "FULL VERSION HISTORY"].
Proof. split; vm_compute; reflexivity. Qed.

Example error_handling_boundary :
  section_titles <$> create_sp_doc (with_score 40 sample)
  = Ok ["PURPOSE"; "WHAT'S NEW IN VERSION 1.2"; "PARAMETERS"; "LOGIC FLOW";
        "DEPENDENCIES"; "USAGE EXAMPLES"; "FULL VERSION HISTORY"]
  ∧ section_titles <$> create_sp_doc (with_score 41 sample)
    = Ok ["PURPOSE"; "WHAT'S NEW IN VERSION 1.2"; "PARAMETERS"; "LOGIC FLOW";
          "DEPENDENCIES"; "USAGE EXAMPLES"; "ERROR HANDLING"; "FULL VERSION HISTORY"].
Proof. split; vm_compute; reflexivity. Qed.

(** ** C8: the Changes cell *)

Lemma refs_ok_lookup a i entry :
  refs_ok a = true → fullVersionHistory a !! i = Some entry →
  is_Some (History.refDoc entry).
Proof.
  unfold refs_ok. rewrite forallb_forall. intros Hall Hi.
  eapply bool_decide_eq_true_1, Hall, list_elem_of_In, list_elem_of_lookup_2, Hi.
Qed.

(** C8: in the version-history table the fourth cell of the row of an entry
    is its changes text, with " (Ref: <refDoc>)" appended exactly when
    refDoc is a non-empty string. *)
Theorem changes_cell_suffix (a : Args) :
  renderable a = true → fullVersionHistory a ≠ [] →
  ∃ d cells,
    create_sp_doc a = Ok d
    ∧ section_body "FULL VERSION HISTORY" d
      = Some [Table "Light Grid Accent 1" cells]
    ∧ cells !! 0 = Some ["Version"; "Date"; "Changed By"; "Changes"]
    ∧ length cells = S (length (fullVersionHistory a))
    ∧ ∀ i entry,
        fullVersionHistory a !! i = Some entry →
        ∃ ref row,
          History.refDoc entry = Some ref
          ∧ cells !! S i = Some row
          ∧ row !! 3
            = Some (if decide (ref = "") then History.changes entry
                    else History.changes entry +:+ " (Ref: " +:+ ref +:+ ")").
Proof.
  intros Hr Hne.
  exists (assemble a), (headers :: (history_row <$> fullVersionHistory a)).
  split; [by apply create_sp_doc_renderable|]. split.
  { rewrite section_body_version_history. unfold version_history_body.
    by destruct (fullVersionHistory a). }
  split; [done|]. split; [by rewrite length_cons, length_fmap|].
  intros i entry Hi.
  apply andb_true_iff in Hr as [_ Hrefs].
  destruct (refs_ok_lookup a i entry Hrefs Hi) as [ref Href].
  exists ref, (history_row entry). split; [done|]. split.
  - change ((history_row <$> fullVersionHistory a) !! i = Some (history_row entry)).
    by rewrite list_lookup_fmap, Hi.
  - unfold history_row, changes_cell. rewrite Href.
    change (text_of (Some ref)) with ref.
    change (?P = ?Q) with (Some (if truthy ref
                                then History.changes entry +:+ " (Ref: " +:+ ref +:+ ")"
                                else History.changes entry) = Q).
    f_equal. destruct ref; [done|]. by destruct (decide _).
Qed.

Lemma changes_cell_suffix_witness :
  renderable sample = true ∧ fullVersionHistory sample ≠ []
  ∧ ∃ d cells,
      create_sp_doc sample = Ok d
      ∧ section_body "FULL VERSION HISTORY" d
        = Some [Table "Light Grid Accent 1" cells]
      ∧ cells !! 0 = Some ["Version"; "Date"; "Changed By"; "Changes"]
      ∧ length cells = S (length (fullVersionHistory sample))
      ∧ ∀ i entry,
          fullVersionHistory sample !! i = Some entry →
          ∃ ref row,
            History.refDoc entry = Some ref
            ∧ cells !! S i = Some row
            ∧ row !! 3
              = Some (if decide (ref = "") then History.changes entry
                      else History.changes entry +:+ " (Ref: " +:+ ref +:+ ")").
Proof.
  split; [reflexivity|]. split; [discriminate|].
  apply changes_cell_suffix; [reflexivity|discriminate].
Defined.

(** ** C9: what the mode flag changes *)

(** C9, as stated, fails: between the two modes the sample documents also
    differ in the "Type:" line of the metadata panel ("Production" against
    "QA Procedure", grey against green), which is neither the title text
    nor the Purpose paragraph. *)
Lemma mode_claim_fails : ¬ mode_claim sample.
Proof.
  intros Hclaim.
  specialize (Hclaim (assemble (with_isQA false sample))
                     (assemble (with_isQA true sample))).
  vm_compute in Hclaim. specialize (Hclaim eq_refl eq_refl).
  discriminate Hclaim.
Qed.

Lemma canonical_with_isQA qa a :
  canonical (with_isQA qa a)
  = mkSec true "PURPOSE" [Paragraph (purpose_text (with_isQA qa a)); Divider]
    :: tail (canonical a).
Proof. reflexivity. Qed.

Lemma assemble_with_isQA qa a :
  assemble (with_isQA qa a)
  = header_block (with_isQA qa a) []
    ++ Heading "5 MOST RECENT CHANGES"
       :: recent_body a
       ++ Heading "1. PURPOSE"
          :: Paragraph (purpose_text (with_isQA qa a))
          :: Divider
          :: flat_map render_sec
               (enumerate 2 (List.filter sec_include (tail (canonical a)))).
Proof.
  unfold assemble, emitted. rewrite canonical_with_isQA.
  cbn [List.filter sec_include enumerate flat_map].
  unfold render_sec at 1. cbn [fst snd sec_title sec_body app].
  by rewrite <- numbered_1_purpose.
Qed.

Lemma mask_title_intro_app (pre d1 d2 : Doc) :
  headings pre = [] →
  mask_title_intro d1 = mask_title_intro d2 →
  mask_title_intro (pre ++ d1) = mask_title_intro (pre ++ d2).
Proof.
  intros Hpre Hd. induction pre as [|b pre IH]; [done|].
  destruct b; try discriminate Hpre; cbn [app mask_title_intro];
    f_equal; by apply IH.
Qed.

Lemma mask_title_intro_purpose (text : string) (d : Doc) :
  mask_title_intro (Heading "1. PURPOSE" :: Paragraph text :: d)
  = Heading "1. PURPOSE" :: Paragraph "" :: mask_title_intro d.
Proof. reflexivity. Qed.

Lemma mask_title_intro_recent (d : Doc) :
  mask_title_intro (Heading "5 MOST RECENT CHANGES" :: d)
  = Heading "5 MOST RECENT CHANGES" :: mask_title_intro d.
Proof. reflexivity. Qed.

Lemma mask_title_intro_header lines meta (d : Doc) :
  mask_title_intro (HeaderTable lines meta :: Divider :: d)
  = HeaderTable ("" :: tail lines) meta :: Divider :: mask_title_intro d.
Proof. reflexivity. Qed.

Lemma mask_mode_with_isQA a :
  mask_mode (assemble (with_isQA false a)) = mask_mode (assemble (with_isQA true a)).
Proof.
  rewrite !assemble_with_isQA. unfold mask_mode, header_block, add_divider.
  cbn [app]. rewrite !mask_title_intro_header, !mask_title_intro_recent.
  cbn [fmap list_fmap]. f_equal. do 2 f_equal.
  fold (@fmap list _). f_equal.
  apply mask_title_intro_app; [apply headings_recent_body|].
  by rewrite !mask_title_intro_purpose.
Qed.

Lemma kind_mask_title_intro (d : Doc) : kind <$> mask_title_intro d = kind <$> d.
Proof.
  assert (∀ (n : nat) (d : Doc),
            (length d ≤ n)%nat → kind <$> mask_title_intro d = kind <$> d) as H.
  { clear d. induction n as [|n IH]; intros [|b d] Hn; try done; [simpl in Hn; lia|].
    simpl in Hn.
    destruct b; cbn [mask_title_intro fmap list_fmap kind]; f_equal;
      try (apply IH; lia).
    destruct (String.eqb text "1. PURPOSE"); [|apply IH; lia].
    destruct d as [|b' d']; [done|]. simpl in Hn.
    destruct b'; try (apply IH; simpl; lia).
    cbn [fmap list_fmap kind]. f_equal. apply IH. lia. }
  by apply (H (length d)).
Qed.

Lemma kind_mask_mode (d : Doc) : kind <$> mask_mode d = kind <$> d.
Proof.
  unfold mask_mode. rewrite <- list_fmap_compose, <- kind_mask_title_intro.
  apply list_fmap_ext. intros _ b _. by destruct b.
Qed.

Lemma renderable_with_isQA_true a :
  renderable (with_isQA false a) = true → renderable (with_isQA true a) = true.
Proof.
  unfold renderable, texts_ok. rewrite !andb_true_iff.
  intros [[[[_ Hp] Hl] He] Hh]. repeat split; assumption.
Qed.

(** C9, amended: for a record that renders in standard mode, both modes
    return documents with the same sequence of block kinds, the same
    section numbers and the same section titles; the two documents are
    equal once the title line, the value and colour of the "Type:" line of
    the metadata panel and the paragraph under "1. PURPOSE" are blanked,
    and that paragraph is the purpose in standard mode and the fixed QA
    sentence followed by the purpose in QA mode. *)
Theorem mode_changes_header_and_intro (a : Args) :
  renderable (with_isQA false a) = true →
  ∃ ds dq,
    create_sp_doc (with_isQA false a) = Ok ds
    ∧ create_sp_doc (with_isQA true a) = Ok dq
    ∧ kind <$> ds = kind <$> dq
    ∧ section_numbers ds = section_numbers dq
    ∧ section_titles ds = section_titles dq
    ∧ mask_mode ds = mask_mode dq
    ∧ section_body "PURPOSE" ds = Some [Paragraph (purpose a); Divider]
    ∧ section_body "PURPOSE" dq
      = Some [Paragraph (qa_purpose_intro +:+ purpose a); Divider].
Proof.
  intros Hr.
  exists (assemble (with_isQA false a)), (assemble (with_isQA true a)).
  split; [by apply create_sp_doc_renderable|].
  split; [by apply create_sp_doc_renderable, renderable_with_isQA_true|].
  split.
  { rewrite <- (kind_mask_mode (assemble (with_isQA false a))).
    by rewrite mask_mode_with_isQA, kind_mask_mode. }
  split; [by rewrite !section_numbers_assemble, !emitted_length|].
  split; [by rewrite !section_titles_assemble, !emitted_titles|].
  split; [apply mask_mode_with_isQA|].
  by rewrite !section_body_purpose.
Qed.

Lemma mode_changes_header_and_intro_witness :
  renderable (with_isQA false sample) = true
  ∧ ∃ ds dq,
      create_sp_doc (with_isQA false sample) = Ok ds
      ∧ create_sp_doc (with_isQA true sample) = Ok dq
      ∧ kind <$> ds = kind <$> dq
      ∧ section_numbers ds = section_numbers dq
      ∧ section_titles ds = section_titles dq
      ∧ mask_mode ds = mask_mode dq
      ∧ section_body "PURPOSE" ds = Some [Paragraph (purpose sample); Divider]
      ∧ section_body "PURPOSE" dq
        = Some [Paragraph (qa_purpose_intro +:+ purpose sample); Divider].
Proof.
  split; [reflexivity|]. apply mode_changes_header_and_intro. reflexivity.
Defined.

(** ** C10: the explanation of a usage example *)

Lemma forallb_false_elem {A} (f : A → bool) (xs : list A) (x : A) :
  x ∈ xs → f x = false → forallb f xs = false.
Proof.
  intros Hx Hf. destruct (forallb f xs) eqn:Hall; [|done].
  rewrite forallb_forall in Hall.
  rewrite Hall in Hf; [done|]. by apply list_elem_of_In.
Qed.

(** C10 at the input it singles out: an example whose explanation key is
    present with the empty string makes the call raise IndexError, at
    [p.runs[0]] on the run-less paragraph just added, so no document with
    that paragraph is ever returned. *)
Theorem empty_explanation_raises (a : Args) (example : Example.t) :
  example ∈ usageExamples a →
  Example.explanation example = Some "" →
  create_sp_doc a = Raise IndexError.
Proof.
  intros Hin Hexp. rewrite create_sp_doc_spec.
  assert (texts_ok a = false) as ->; [|done].
  unfold texts_ok.
  rewrite (forallb_enumerate
             (λ e, match Example.explanation e with
                   | Some text => truthy text
                   | None => true
                   end) example_ok) by done.
  rewrite (forallb_false_elem _ _ example Hin); [apply andb_false_r|].
  by rewrite Hexp.
Qed.

Lemma empty_explanation_raises_witness :
  create_sp_doc empty_explanation_args = Raise IndexError.
Proof.
  apply (empty_explanation_raises empty_explanation_args
           (Example.mk "Update customer email" "EXEC dbo.usp_Customer_Update" (Some ""))).
  - apply list_elem_of_here.
  - reflexivity.
Defined.

(** The rest of C10 holds: an example is rendered with a third block, the
    explanation paragraph, exactly when the key is present, whereas the
    third block of a parameter, the "Default:" line, needs the key present
    and its value truthy. *)
Lemma explanation_presence (ix : nat * Example.t) :
  length (example_blocks ix) = 3 ↔ is_Some (Example.explanation ix.2).
Proof.
  unfold example_blocks.
  destruct (Example.explanation ix.2) as [text|]; simpl; split.
  - by eexists.
  - done.
  - discriminate.
  - by intros [? ?].
Qed.

Lemma default_line_truthy (param : Param.t) :
  length (param_blocks param) = 3
  ↔ ∃ v, Param.defaultValue param = Some (Some v) ∧ v ≠ "".
Proof.
  unfold param_blocks.
  destruct (Param.defaultValue param) as [[[|c v]|]|]; simpl; split;
    try discriminate; try done.
  - by intros (v & [= <-] & Hv).
  - intros _. by eexists.
  - by intros (v & [=] & _).
  - by intros (v & [=] & _).
Qed.

(** * Further properties of [create_sp_doc] *)

(** ** Which exception, and when *)









Example missing_refDoc_raises :
  create_sp_doc missing_refDoc_args = Raise (KeyError "refDoc").
Proof. vm_compute. reflexivity. Qed.


(** ** The table of the version history *)

Lemma version_history_section_no_IndexError a st :
  version_history_section a st ≠ Raise IndexError.
Proof.
  destruct st as [doc n]. rewrite version_history_section_spec.
  by destruct (refs_ok a).
Qed.

(** X4: the version-history table is a full grid: one more row than there
    are entries, four cells in every row, and the row of an entry starts
    with "v<version>", its date and who changed it.  Filling it never runs
    out of the grid: the section cannot raise IndexError. *)
Theorem version_history_table_shape (a : Args) :
  renderable a = true → fullVersionHistory a ≠ [] →
  (∀ st, version_history_section a st ≠ Raise IndexError)
  ∧ ∃ d cells,
      create_sp_doc a = Ok d
      ∧ section_body "FULL VERSION HISTORY" d
        = Some [Table "Light Grid Accent 1" cells]
      ∧ length cells = S (length (fullVersionHistory a))
      ∧ Forall (λ row, length row = 4) cells
      ∧ ∀ i entry,
          fullVersionHistory a !! i = Some entry →
          ∃ row, cells !! S i = Some row
               ∧ take 3 row = ["v" +:+ History.version entry;
                               History.date entry; History.changedBy entry].
Proof.
  intros Hr Hne. split; [apply version_history_section_no_IndexError|].
  exists (assemble a), (headers :: (history_row <$> fullVersionHistory a)).
  split; [by apply create_sp_doc_renderable|]. split.
  { rewrite section_body_version_history. unfold version_history_body.
    by destruct (fullVersionHistory a). }
  split; [by rewrite length_cons, length_fmap|]. split.
  - constructor; [done|]. apply Forall_fmap, Forall_true. done.
  - intros i entry Hi. exists (history_row entry). split; [|done].
    change ((history_row <$> fullVersionHistory a) !! i = Some (history_row entry)).
    by rewrite list_lookup_fmap, Hi.
Qed.

Lemma version_history_table_shape_witness :
  renderable sample = true ∧ fullVersionHistory sample ≠ []
  ∧ (∀ st, version_history_section sample st ≠ Raise IndexError)
  ∧ ∃ d cells,
      create_sp_doc sample = Ok d
      ∧ section_body "FULL VERSION HISTORY" d
        = Some [Table "Light Grid Accent 1" cells]
      ∧ length cells = S (length (fullVersionHistory sample))
      ∧ Forall (λ row, length row = 4) cells
      ∧ ∀ i entry,
          fullVersionHistory sample !! i = Some entry →
          ∃ row, cells !! S i = Some row
               ∧ take 3 row = ["v" +:+ History.version entry;
                               History.date entry; History.changedBy entry].
Proof.
  split; [reflexivity|]. split; [discriminate|].
  apply version_history_table_shape; [reflexivity|discriminate].
Defined.

(** ** What the optional "what's new" text moves *)

Lemma enumerate_shift {A} (k : nat) (xs : list A) :
  enumerate k xs = prod_map pred id <$> enumerate (S k) xs.
Proof.
  revert k. induction xs as [|x xs IH]; intros k; [done|].
  cbn [enumerate fmap list_fmap]. f_equal. apply IH.
Qed.

Lemma emitted_split a :
  emitted a
  = mkSec true "PURPOSE" [Paragraph (purpose_text a); Divider]
    :: (if whats_new_gate a
        then [mkSec true ("WHAT'S NEW IN VERSION " +:+ version a)
                (Subheader "Changes in This Version:" :: prose_body (whatsNew a))]
        else [])
    ++ List.filter sec_include (drop 2 (canonical a)).
Proof.
  unfold emitted, canonical. cbn [List.filter sec_include drop].
  by destruct (whats_new_gate a).
Qed.

(** X5: leaving out the "what's new" text removes section 2 and lowers
    the number of every later section by exactly one; the sections keep
    their order and their bodies. *)
Theorem whats_new_shifts_numbers (a : Args) :
  renderable a = true → truthy (whatsNew a) = true →
  ∃ d d' rest,
    create_sp_doc a = Ok d
    ∧ create_sp_doc (with_whatsNew None a) = Ok d'
    ∧ numbered_sections d
      = (1, "PURPOSE") :: (2, "WHAT'S NEW IN VERSION " +:+ version a) :: rest
    ∧ numbered_sections d' = (1, "PURPOSE") :: (prod_map pred id <$> rest)
    ∧ ∀ title, title ≠ "WHAT'S NEW IN VERSION " +:+ version a →
               section_body title d' = section_body title d.
Proof.
  intros Hr Hw.
  exists (assemble a), (assemble (with_whatsNew None a)),
    ((λ ix : nat * Sec, (ix.1, sec_title ix.2))
       <$> enumerate 3 (List.filter sec_include (drop 2 (canonical a)))).
  split; [by apply create_sp_doc_renderable|].
  split; [by apply create_sp_doc_renderable|].
  assert (emitted (with_whatsNew None a)
          = mkSec true "PURPOSE" [Paragraph (purpose_text a); Divider]
            :: List.filter sec_include (drop 2 (canonical a))) as Hnone.
  { by rewrite emitted_split. }
  assert (emitted a
          = mkSec true "PURPOSE" [Paragraph (purpose_text a); Divider]
            :: mkSec true ("WHAT'S NEW IN VERSION " +:+ version a)
                 (Subheader "Changes in This Version:" :: prose_body (whatsNew a))
            :: List.filter sec_include (drop 2 (canonical a))) as Hsome.
  { rewrite emitted_split. unfold whats_new_gate. by rewrite Hw. }
  split; [|split].
  - by rewrite numbered_sections_assemble, Hsome.
  - rewrite numbered_sections_assemble, Hnone. cbn [enumerate fmap list_fmap fst snd sec_title].
    f_equal. rewrite (enumerate_shift 2), <- !list_fmap_compose.
    apply list_fmap_ext. by intros _ [i s] _.
  - intros title Hne. rewrite !section_body_assemble, Hsome, Hnone.
    cbn [List.find sec_title].
    destruct (String.eqb "PURPOSE" title); [done|].
    destruct (String.eqb_spec ("WHAT'S NEW IN VERSION " +:+ version a) title); [|done].
    by subst.
Qed.

Lemma whats_new_shifts_numbers_witness :
  renderable sample = true ∧ truthy (whatsNew sample) = true
  ∧ ∃ d d' rest,
      create_sp_doc sample = Ok d
      ∧ create_sp_doc (with_whatsNew None sample) = Ok d'
      ∧ numbered_sections d
        = (1, "PURPOSE") :: (2, "WHAT'S NEW IN VERSION " +:+ version sample) :: rest
      ∧ numbered_sections d' = (1, "PURPOSE") :: (prod_map pred id <$> rest)
      ∧ ∀ title, title ≠ "WHAT'S NEW IN VERSION " +:+ version sample →
                 section_body title d' = section_body title d.
Proof.
  split; [reflexivity|]. split; [reflexivity|].
  apply whats_new_shifts_numbers; reflexivity.
Defined.

(** ** Dividers close every section but the last *)

Lemma forallb_inner_flat_map {A} (f : A → list Block) (xs : list A) :
  (∀ x, forallb inner (f x) = true) → forallb inner (flat_map f xs) = true.
Proof.
  intros Hf. induction xs as [|x xs IH]; [done|].
  cbn [flat_map]. by rewrite forallb_app, Hf, IH.
Qed.

Lemma forallb_inner_fmap {A} (f : A → Block) (xs : list A) :
  (∀ x, inner (f x) = true) → forallb inner (f <$> xs) = true.
Proof.
  intros Hf. rewrite <- flat_map_singleton. apply forallb_inner_flat_map.
  intros x. cbn [forallb]. by rewrite Hf.
Qed.

Lemma inner_dependency_blocks deps key label :
  forallb inner (dependency_blocks deps key label) = true.
Proof.
  unfold dependency_blocks. destruct (deps !! key) as [items|]; [|done].
  destruct (truthy items); [|done].
  cbn [forallb inner]. by apply forallb_inner_fmap.
Qed.

Lemma closed_recent_body a :
  ∃ core, recent_body a = core ++ [Divider] ∧ forallb inner core = true.
Proof.
  unfold recent_body. eexists. split; [done|].
  destruct (truthy (recentChanges a)); [|done]. by apply forallb_inner_fmap.
Qed.

Lemma closed_canonical a :
  Forall (λ s, ∃ core, sec_body s = core ++ [Divider] ∧ forallb inner core = true)
         (take 8 (canonical a)).
Proof.
  unfold canonical. cbn [take]. repeat constructor; cbn [sec_body].
  - by exists [Paragraph (purpose_text a)].
  - by exists [Subheader "Changes in This Version:"; Paragraph (text_of (whatsNew a))].
  - unfold parameters_body. eexists. split; [done|].
    destruct (truthy (parameters a)); [|done].
    apply forallb_inner_flat_map. intros p. unfold param_blocks.
    destruct (Param.defaultValue p) as [v|]; [destruct (truthy v)|]; done.
  - unfold logic_flow_body. eexists. split; [done|].
    destruct (logicFlow a); [|done]. by apply forallb_inner_flat_map.
  - unfold dependencies_body.
    exists (dependency_blocks (default ∅ (dependencies a)) "tables" "Tables Accessed:"
            ++ dependency_blocks (default ∅ (dependencies a)) "procedures"
                 "Stored Procedures Called:").
    split; [by rewrite <- app_assoc|].
    by rewrite forallb_app, !inner_dependency_blocks.
  - unfold usage_examples_body. eexists. split; [done|].
    apply forallb_inner_flat_map. intros [i e]. unfold example_blocks.
    by destruct (Example.explanation (i, e).2).
  - by exists [Paragraph (text_of (performanceNotes a))].
  - by exists [Paragraph (text_of (errorHandling a))].
Qed.

Lemma emitted_front a :
  emitted a
  = List.filter sec_include (take 8 (canonical a))
    ++ [mkSec true "FULL VERSION HISTORY" (version_history_body a)].
Proof.
  unfold emitted.
  change (canonical a)
    with (take 8 (canonical a)
          ++ [mkSec true "FULL VERSION HISTORY" (version_history_body a)]) at 1.
  by rewrite List.filter_app.
Qed.

Lemma count_kind_inner k (core : list Block) :
  forallb inner core = true →
  k ∈ [KHeaderTable; KDivider; KHeading; KTable] →
  count_kind k core = 0.
Proof.
  intros Hcore Hk. induction core as [|b core IH]; [done|].
  cbn [forallb] in Hcore. apply andb_true_iff in Hcore as [Hb Hcore].
  change (b :: core) with ([b] ++ core). rewrite count_kind_app, IH by done.
  destruct b; try discriminate Hb; unfold count_kind; cbn [List.filter kind];
    rewrite bool_decide_eq_false_2; try done;
    intros <-; repeat (apply elem_of_cons in Hk as [Hk|Hk]; [discriminate|]);
    by apply elem_of_nil in Hk.
Qed.

Lemma count_dividers_render (k : nat) (ss : list Sec) :
  Forall (λ s, ∃ core, sec_body s = core ++ [Divider] ∧ forallb inner core = true) ss →
  count_kind KDivider (flat_map render_sec (enumerate k ss)) = length ss.
Proof.
  intros Hss. revert k. induction Hss as [|s ss (core & Hs & Hcore) _ IH]; intros k; [done|].
  cbn [enumerate flat_map length]. rewrite count_kind_app, IH.
  unfold render_sec. cbn [fst snd]. rewrite Hs.
  change (Heading ?h :: core ++ [Divider]) with ([Heading h] ++ core ++ [Divider]).
  rewrite !count_kind_app, (count_kind_inner KDivider core)
    by (try done; apply list_elem_of_further, list_elem_of_here).
  done.
Qed.

(** X6: every section of a returned document except the last one (Full
    Version History) is closed by exactly one divider, before which it
    holds only subheaders, paragraphs, bullets and code blocks; so the
    document has as many dividers as section titles. *)
Theorem dividers_close_sections (a : Args) :
  renderable a = true →
  ∃ d, create_sp_doc a = Ok d
    ∧ (∀ i title body,
         sections d !! i = Some (title, body) → S i < length (sections d) →
         ∃ core, body = core ++ [Divider] ∧ forallb inner core = true)
    ∧ count_kind KDivider d = length (headings d).
Proof.
  intros Hr. exists (assemble a). split; [by apply create_sp_doc_renderable|].
  pose proof (Forall_list_filter _ sec_include _ (closed_canonical a)) as Hfront.
  split.
  - rewrite sections_assemble, emitted_front, enumerate_app, fmap_app.
    cbn [length]. rewrite length_app, !length_fmap, !enumerate_length. cbn [length].
    intros [|i] title body Hi Hlen.
    + injection Hi as <- <-. apply closed_recent_body.
    + rewrite lookup_cons in Hi.
      rewrite lookup_app_l in Hi
        by (rewrite length_fmap, enumerate_length; lia).
      rewrite list_lookup_fmap, enumerate_lookup in Hi.
      destruct (List.filter sec_include (take 8 (canonical a)) !! i) as [s|] eqn:Hs;
        [|discriminate Hi].
      injection Hi as <- <-.
      by apply (Forall_lookup_1 _ _ _ _ Hfront Hs).
  - rewrite headings_sections, sections_assemble. cbn [fmap list_fmap length].
    rewrite !length_fmap, enumerate_length.
    unfold assemble, header_block, add_divider. cbn [app].
    change (HeaderTable ?l ?m :: Divider :: Heading ?h :: ?rest)
      with ([HeaderTable l m; Divider; Heading h] ++ rest).
    destruct (closed_recent_body a) as (core & -> & Hcore).
    rewrite !count_kind_app, (count_kind_inner KDivider core)
    by (try done; apply list_elem_of_further, list_elem_of_here).
    rewrite emitted_front, enumerate_app, flat_map_app, count_kind_app.
    rewrite count_dividers_render by done.
    rewrite length_app. cbn [enumerate flat_map render_sec fst snd sec_body app length].
    rewrite app_nil_r. unfold version_history_body.
    change (count_kind KDivider [HeaderTable ?l ?m; Divider; Heading ?h]) with 1.
    change (count_kind KDivider [Divider]) with 1.
    destruct (truthy (fullVersionHistory a)).
    all: match goal with
         | |- context [count_kind KDivider ?l] => change (count_kind KDivider l) with 0
         end; lia.
Qed.

Lemma dividers_close_sections_witness :
  renderable sample = true
  ∧ ∃ d, create_sp_doc sample = Ok d
      ∧ (∀ i title body,
           sections d !! i = Some (title, body) → S i < length (sections d) →
           ∃ core, body = core ++ [Divider] ∧ forallb inner core = true)
      ∧ count_kind KDivider d = length (headings d).
Proof.
  split; [reflexivity|]. apply dividers_close_sections. reflexivity.
Defined.

(** ** The bodies of the remaining sections *)

Lemma count_subheaders_param_blocks (params : list Param.t) :
  count_kind KSubheader (flat_map param_blocks params) = length params.
Proof.
  induction params as [|p ps IH]; [done|].
  cbn [flat_map length]. rewrite count_kind_app, IH. f_equal.
  unfold param_blocks.
  destruct (Param.defaultValue p) as [v|]; [destruct (truthy v)|]; reflexivity.
Qed.

(** X7: the Parameters section holds the placeholder "No parameters" when
    there is no parameter; otherwise, for each parameter in order, the
    subheading "<name> (<type>):", the description, and a "Default: <value>"
    line only when the defaultValue key is present with a non-empty string
    ([None] and the empty string both suppress it). *)
Theorem parameters_rendering (a : Args) :
  renderable a = true →
  ∃ d body,
    create_sp_doc a = Ok d
    ∧ section_body "PARAMETERS" d = Some (body ++ [Divider])
    ∧ (parameters a = [] → body = [Paragraph "No parameters"])
    ∧ (parameters a ≠ [] →
       body = flat_map
                (λ param,
                   [Subheader (Param.name param +:+ " (" +:+ Param.type param +:+ "):");
                    Paragraph (Param.description param)]
                   ++ match Param.defaultValue param with
                      | Some (Some (String c v)) =>
                          [Paragraph ("Default: " +:+ String c v)]
                      | _ => []
                      end)
                (parameters a)
       ∧ count_kind KSubheader body = length (parameters a)).
Proof.
  intros Hr. exists (assemble a).
  exists (if truthy (parameters a) then flat_map param_blocks (parameters a)
          else [Paragraph "No parameters"]).
  split; [by apply create_sp_doc_renderable|].
  split; [by rewrite section_body_parameters|].
  destruct (parameters a) as [|p ps]; split; try done.
  intros _. change (truthy (p :: ps)) with true. cbv iota.
  split; [|apply count_subheaders_param_blocks].
  apply flat_map_ext. intros param. unfold param_blocks. f_equal.
  by destruct (Param.defaultValue param) as [[[|c v]|]|].
Qed.

Lemma parameters_rendering_witness :
  renderable sample = true
  ∧ ∃ d body,
      create_sp_doc sample = Ok d
      ∧ section_body "PARAMETERS" d = Some (body ++ [Divider])
      ∧ (parameters sample = [] → body = [Paragraph "No parameters"])
      ∧ (parameters sample ≠ [] →
         body = flat_map
                  (λ param,
                     [Subheader (Param.name param +:+ " (" +:+ Param.type param +:+ "):");
                      Paragraph (Param.description param)]
                     ++ match Param.defaultValue param with
                        | Some (Some (String c v)) =>
                            [Paragraph ("Default: " +:+ String c v)]
                        | _ => []
                        end)
                  (parameters sample)
         ∧ count_kind KSubheader body = length (parameters sample)).
Proof.
  split; [reflexivity|]. apply parameters_rendering. reflexivity.
Defined.




Lemma bullets_dependency_blocks (deps : gmap string (list string)) key label :
  bullets (dependency_blocks deps key label)
  = (λ item, "• " +:+ item) <$> default [] (deps !! key).
Proof.
  unfold dependency_blocks. destruct (deps !! key) as [items|]; [|done].
  destruct items as [|item items]; [done|].
  change (truthy (item :: items)) with true. cbv iota.
  change (Subheader label :: ?l) with ([Subheader label] ++ l).
  rewrite bullets_app. apply bullets_fmap.
Qed.

Lemma subheader_dependency_blocks (deps : gmap string (list string)) key label text :
  Subheader text ∈ dependency_blocks deps key label
  ↔ text = label ∧ default [] (deps !! key) ≠ [].
Proof.
  unfold dependency_blocks.
  destruct (deps !! key) as [[|item items]|]; cbn [default].
  - rewrite elem_of_nil. split; [done|by intros [_ ?]].
  - change (truthy (item :: items)) with true. cbv iota.
    rewrite elem_of_cons, list_elem_of_fmap. split.
    + intros [[= ->]|(x & Hx & _)]; [done|discriminate Hx].
    + intros [-> _]. by left.
  - rewrite elem_of_nil. split; [done|by intros [_ ?]].
Qed.

(** X9: when the Dependencies section is emitted, its bullets are the
    entries of the "tables" list followed by those of the "procedures"
    list, each behind "• " and in the given order; a missing key counts as
    an empty list, any other key of the mapping is ignored, and each of the
    two subheadings appears only over a non-empty list. *)
Theorem dependencies_rendering (a : Args) (deps : gmap string (list string)) :
  renderable a = true →
  (30 < complexityScore a)%Z → dependencies a = Some deps → deps ≠ ∅ →
  ∃ d body,
    create_sp_doc a = Ok d
    ∧ section_body "DEPENDENCIES" d = Some (body ++ [Divider])
    ∧ bullets body
      = (λ item, "• " +:+ item)
        <$> (default [] (deps !! "tables") ++ default [] (deps !! "procedures"))
    ∧ (Subheader "Tables Accessed:" ∈ body
       ↔ default [] (deps !! "tables") ≠ [])
    ∧ (Subheader "Stored Procedures Called:" ∈ body
       ↔ default [] (deps !! "procedures") ≠ []).
Proof.
  intros Hr Hscore Hdeps Hne. exists (assemble a).
  exists (dependency_blocks deps "tables" "Tables Accessed:"
          ++ dependency_blocks deps "procedures" "Stored Procedures Called:").
  split; [by apply create_sp_doc_renderable|]. split.
  { rewrite section_body_dependencies.
    assert (dependencies_gate a = true) as -> by (apply dependencies_gate_true; eauto).
    unfold dependencies_body. rewrite Hdeps.
    change (default ∅ (Some deps)) with deps. by rewrite <- app_assoc. }
  split; [by rewrite bullets_app, !bullets_dependency_blocks, fmap_app|].
  rewrite !elem_of_app, !subheader_dependency_blocks.
  split; split.
  - intros [[_ H]|[H _]]; [done|discriminate H].
  - intros H. by left.
  - intros [[H _]|[_ H]]; [discriminate H|done].
  - intros H. by right.
Qed.

Lemma dependencies_rendering_witness :
  renderable sample = true
  ∧ (30 < complexityScore sample)%Z
  ∧ dependencies sample = Some (default ∅ (dependencies sample))
  ∧ default ∅ (dependencies sample) ≠ ∅
  ∧ ∃ d body,
      create_sp_doc sample = Ok d
      ∧ section_body "DEPENDENCIES" d = Some (body ++ [Divider])
      ∧ bullets body
        = (λ item, "• " +:+ item)
          <$> (default [] (default ∅ (dependencies sample) !! "tables")
               ++ default [] (default ∅ (dependencies sample) !! "procedures"))
      ∧ (Subheader "Tables Accessed:" ∈ body
         ↔ default [] (default ∅ (dependencies sample) !! "tables") ≠ [])
      ∧ (Subheader "Stored Procedures Called:" ∈ body
         ↔ default [] (default ∅ (dependencies sample) !! "procedures") ≠ []).
Proof.
  split; [reflexivity|]. split; [reflexivity|]. split; [reflexivity|].
  assert (default ∅ (dependencies sample) ≠ ∅) as Hne.
  { intros H. apply (f_equal (λ m : gmap string (list string), m !! "tables")) in H.
    vm_compute in H. discriminate H. }
  split; [exact Hne|].
  apply dependencies_rendering; [reflexivity|reflexivity|reflexivity|exact Hne].
Defined.

(** ** Order and growth of the list of sections *)

Lemma gate_piece_sublist (g g' : bool) (title : string) :
  (g = true → g' = true) →
  (if g then [title] else []) `sublist_of` (if g' then [title] else []).
Proof.
  intros Hg. destruct g; [rewrite Hg by done; done|]. apply sublist_nil_l.
Qed.

Lemma prose_gate_mono {T} `{Truthy T} (threshold z z' : Z) (text : T) :
  (z ≤ z')%Z →
  (threshold <? z)%Z && truthy text = true →
  (threshold <? z')%Z && truthy text = true.
Proof.
  intros Hz. rewrite !andb_true_iff, !Z.ltb_lt. intros [? ?]. split; [lia|done].
Qed.

(** X10: raising the complexity score never removes a section: the titles
    emitted at a score are, in the same order, among the titles emitted at
    any higher score. *)
Theorem sections_grow_with_score (a : Args) (z z' : Z) :
  renderable a = true → (z ≤ z')%Z →
  ∃ d d',
    create_sp_doc (with_score z a) = Ok d
    ∧ create_sp_doc (with_score z' a) = Ok d'
    ∧ section_titles d `sublist_of` section_titles d'.
Proof.
  intros Hr Hz.
  exists (assemble (with_score z a)), (assemble (with_score z' a)).
  split; [by apply create_sp_doc_renderable|].
  split; [by apply create_sp_doc_renderable|].
  rewrite !section_titles_assemble, !emitted_titles.
  repeat apply sublist_app; try done.
  all: apply gate_piece_sublist.
  all: unfold whats_new_gate, dependencies_gate, performance_notes_gate,
         error_handling_gate;
       cbn [with_score complexityScore dependencies performanceNotes
              errorHandling whatsNew].
  all: first [ by apply prose_gate_mono | intros H; exact H ].
Qed.

Lemma sections_grow_with_score_witness :
  renderable sample = true ∧ (45 ≤ 80)%Z
  ∧ ∃ d d',
      create_sp_doc (with_score 45 sample) = Ok d
      ∧ create_sp_doc (with_score 80 sample) = Ok d'
      ∧ section_titles d `sublist_of` section_titles d'.
Proof.
  split; [reflexivity|]. split; [lia|].
  apply sections_grow_with_score; [reflexivity|lia].
Defined.

(** X11: the numbered sections always come in one fixed order, Purpose,
    What's New, Parameters, Logic Flow, Dependencies, Usage Examples,
    Performance Notes, Error Handling, Full Version History, of which the
    five ungated ones are always present. *)
Theorem sections_in_canonical_order (a : Args) :
  renderable a = true →
  ∃ d, create_sp_doc a = Ok d
    ∧ section_titles d
      `sublist_of` ["PURPOSE"; "WHAT'S NEW IN VERSION " +:+ version a;
                    "PARAMETERS"; "LOGIC FLOW"; "DEPENDENCIES"; "USAGE EXAMPLES";
                    "PERFORMANCE NOTES"; "ERROR HANDLING"; "FULL VERSION HISTORY"]
    ∧ ["PURPOSE"; "PARAMETERS"; "LOGIC FLOW"; "USAGE EXAMPLES";
       "FULL VERSION HISTORY"] `sublist_of` section_titles d.
Proof.
  intros Hr. exists (assemble a). split; [by apply create_sp_doc_renderable|].
  rewrite section_titles_assemble, emitted_titles.
  split.
  - change ["PURPOSE"; "WHAT'S NEW IN VERSION " +:+ version a;
            "PARAMETERS"; "LOGIC FLOW"; "DEPENDENCIES"; "USAGE EXAMPLES";
            "PERFORMANCE NOTES"; "ERROR HANDLING"; "FULL VERSION HISTORY"]
      with (["PURPOSE"] ++ ["WHAT'S NEW IN VERSION " +:+ version a]
            ++ ["PARAMETERS"; "LOGIC FLOW"] ++ ["DEPENDENCIES"]
            ++ ["USAGE EXAMPLES"] ++ ["PERFORMANCE NOTES"]
            ++ ["ERROR HANDLING"] ++ ["FULL VERSION HISTORY"]).
    repeat apply sublist_app; try done.
    all: match goal with |- (if ?g then _ else _) `sublist_of` _ =>
           destruct g; [done|apply sublist_nil_l] end.
  - change ["PURPOSE"; "PARAMETERS"; "LOGIC FLOW"; "USAGE EXAMPLES";
            "FULL VERSION HISTORY"]
      with (["PURPOSE"] ++ [] ++ ["PARAMETERS"; "LOGIC FLOW"] ++ []
            ++ ["USAGE EXAMPLES"] ++ [] ++ [] ++ ["FULL VERSION HISTORY"]).
    repeat apply sublist_app; try done; apply sublist_nil_l.
Qed.

Lemma sections_in_canonical_order_witness :
  renderable sample = true
  ∧ ∃ d, create_sp_doc sample = Ok d
      ∧ section_titles d
        `sublist_of` ["PURPOSE"; "WHAT'S NEW IN VERSION " +:+ version sample;
                      "PARAMETERS"; "LOGIC FLOW"; "DEPENDENCIES"; "USAGE EXAMPLES";
                      "PERFORMANCE NOTES"; "ERROR HANDLING"; "FULL VERSION HISTORY"]
      ∧ ["PURPOSE"; "PARAMETERS"; "LOGIC FLOW"; "USAGE EXAMPLES";
         "FULL VERSION HISTORY"] `sublist_of` section_titles d.
Proof.
  split; [reflexivity|]. apply sections_in_canonical_order. reflexivity.
Defined.

(** ** The "what's new" section *)

(** X12: the What's New section is emitted exactly when whatsNew is a
    non-empty string; it is then section 2, titled with the version, and
    holds the subheading "Changes in This Version:", the text and the
    divider. *)
Theorem whats_new_rendering (a : Args) :
  renderable a = true →
  ∃ d, create_sp_doc a = Ok d
    ∧ ((∃ n, (n, "WHAT'S NEW IN VERSION " +:+ version a) ∈ numbered_sections d)
       ↔ ∃ text, whatsNew a = Some text ∧ text ≠ "")
    ∧ ∀ text, whatsNew a = Some text → text ≠ "" →
        numbered_sections d !! 1 = Some (2, "WHAT'S NEW IN VERSION " +:+ version a)
        ∧ section_body ("WHAT'S NEW IN VERSION " +:+ version a) d
          = Some [Subheader "Changes in This Version:"; Paragraph text; Divider].
Proof.
  intros Hr. exists (assemble a). split; [by apply create_sp_doc_renderable|].
  rewrite <- truthy_option_string_true. fold (whats_new_gate a).
  rewrite numbered_sections_assemble, section_body_assemble, emitted_split.
  split.
  - destruct (whats_new_gate a); split; try done.
    + intros _. exists 2. cbn [app enumerate fmap list_fmap fst snd sec_title].
      apply list_elem_of_further, list_elem_of_here.
    + intros [n Hn]. cbn [app enumerate fmap list_fmap fst snd sec_title] in Hn.
      apply elem_of_cons in Hn as [Hn|Hn]; [injection Hn as _ Hn; discriminate Hn|].
      fold (@fmap list _) in Hn. apply list_elem_of_fmap in Hn as ([i s] & [= -> Hs] & Hin).
      assert (s ∈ List.filter sec_include (drop 2 (canonical a))) as Hs'.
      { rewrite <- (enumerate_snd 2). apply list_elem_of_fmap. by exists (i, s). }
      apply list_elem_of_In, List.filter_In in Hs' as [Hs' _].
      apply list_elem_of_In in Hs'. unfold canonical in Hs'. cbn [drop] in Hs'.
      cbn [snd] in Hs. rewrite !elem_of_cons, elem_of_nil in Hs'.
      destruct_or?; subst s; try discriminate Hs; done.
  - intros text Hsome Hne.
    assert (whats_new_gate a = true) as ->.
    { unfold whats_new_gate. apply truthy_option_string_true. eauto. }
    split; [done|].
    cbn [app List.find sec_title]. rewrite String.eqb_refl.
    unfold prose_body. by rewrite Hsome.
Qed.

Lemma whats_new_rendering_witness :
  renderable sample = true
  ∧ ∃ d, create_sp_doc sample = Ok d
      ∧ ((∃ n, (n, "WHAT'S NEW IN VERSION " +:+ version sample) ∈ numbered_sections d)
         ↔ ∃ text, whatsNew sample = Some text ∧ text ≠ "")
      ∧ ∀ text, whatsNew sample = Some text → text ≠ "" →
          numbered_sections d !! 1
          = Some (2, "WHAT'S NEW IN VERSION " +:+ version sample)
          ∧ section_body ("WHAT'S NEW IN VERSION " +:+ version sample) d
            = Some [Subheader "Changes in This Version:"; Paragraph text; Divider].
Proof.
  split; [reflexivity|]. apply whats_new_rendering. reflexivity.
Defined.

(** ** Inputs that do not reach the document *)

Lemma recent_body_take a changes :
  take 5 changes = take 5 (recentChanges a) →
  recent_body (with_recentChanges changes a) = recent_body a.
Proof.
  intros Htake. unfold recent_body. cbn [with_recentChanges recentChanges].
  rewrite Htake. f_equal.
  destruct changes as [|c cs], (recentChanges a) as [|c' cs']; try done.
Qed.

(** X13: recent changes beyond the fifth never reach the document: two
    calls whose recentChanges agree on their first five entries, and on
    every other argument, have the same result. *)
Theorem later_changes_ignored (a : Args) (changes : list Change.t) :
  take 5 changes = take 5 (recentChanges a) →
  create_sp_doc (with_recentChanges changes a) = create_sp_doc a.
Proof.
  intros Htake. rewrite !create_sp_doc_spec.
  change (texts_ok (with_recentChanges changes a)) with (texts_ok a).
  change (refs_ok (with_recentChanges changes a)) with (refs_ok a).
  destruct (texts_ok a), (refs_ok a); try done.
  f_equal. unfold assemble. rewrite (recent_body_take a changes Htake).
  reflexivity.
Qed.

Lemma later_changes_ignored_witness :
  take 5 (recentChanges eight_changes_args) = take 5 (recentChanges sample)
  ∧ create_sp_doc (with_recentChanges (recentChanges eight_changes_args) sample)
    = create_sp_doc sample.
Proof.
  split; [reflexivity|].
  apply (later_changes_ignored sample (recentChanges eight_changes_args)).
  reflexivity.
Defined.

(** X14: the objectType argument is accepted and never used: the result
    is the same whatever it holds. *)
Theorem objectType_ignored (a : Args) (t : string) :
  create_sp_doc (with_objectType t a) = create_sp_doc a.
Proof. reflexivity. Qed.

(** ** The header and the census of blocks *)

Lemma outer_kind (k : Kind) :
  k ∈ [KHeaderTable; KTable] → k ∈ [KHeaderTable; KDivider; KHeading; KTable].
Proof. rewrite !elem_of_cons, !elem_of_nil. tauto. Qed.

Lemma count_kind_render_zero (k : Kind) (n : nat) (ss : list Sec) :
  k ∈ [KHeaderTable; KTable] →
  Forall (λ s, ∃ core, sec_body s = core ++ [Divider] ∧ forallb inner core = true) ss →
  count_kind k (flat_map render_sec (enumerate n ss)) = 0.
Proof.
  intros Hk Hss. revert n.
  induction Hss as [|s ss (core & Hs & Hcore) _ IH]; intros n; [done|].
  cbn [enumerate flat_map]. rewrite count_kind_app, IH.
  unfold render_sec. cbn [fst snd]. rewrite Hs.
  change (Heading ?h :: core ++ [Divider]) with ([Heading h] ++ core ++ [Divider]).
  rewrite !count_kind_app, (count_kind_inner k core) by (try done; by apply outer_kind).
  apply elem_of_cons in Hk as [->|Hk]; [done|].
  apply elem_of_cons in Hk as [->|Hk]; [done|]. by apply elem_of_nil in Hk.
Qed.

Lemma count_kind_assemble (k : Kind) a :
  k ∈ [KHeaderTable; KTable] →
  count_kind k (assemble a)
  = count_kind k [HeaderTable [] []] + count_kind k (version_history_body a).
Proof.
  intros Hk. unfold assemble, header_block, add_divider. cbn [app].
  change (HeaderTable ?l ?m :: Divider :: Heading ?h :: ?rest)
    with ([HeaderTable l m; Divider; Heading h] ++ rest).
  destruct (closed_recent_body a) as (core & -> & Hcore).
  rewrite !count_kind_app, (count_kind_inner k core) by (try done; by apply outer_kind).
  rewrite emitted_front, enumerate_app, flat_map_app, count_kind_app.
  rewrite count_kind_render_zero
    by (try done; apply Forall_list_filter, closed_canonical).
  cbn [enumerate flat_map render_sec fst snd sec_body app].
  rewrite app_nil_r.
  change (Heading ?h :: ?rest) with ([Heading h] ++ rest).
  rewrite count_kind_app.
  apply elem_of_cons in Hk as [->|Hk]; [reflexivity|].
  apply elem_of_cons in Hk as [->|Hk]; [reflexivity|]. by apply elem_of_nil in Hk.
Qed.

(** X16: a returned document opens with the header table, a divider and
    the title "5 MOST RECENT CHANGES".  The header shows the mode's title,
    "Technical Documentation" and "<schema>.<spName>", and the panel shows
    the version behind "v", the mode label, the creation date and author and
    the score as "<score>/100", whatever the score is.  It is the only
    header table of the document, which has one more table exactly when
    the version history is not empty. *)
Theorem header_and_tables (a : Args) :
  renderable a = true →
  ∃ d rest,
    create_sp_doc a = Ok d
    ∧ d = HeaderTable
            [if isQA a then "QA STORED PROCEDURE" else "STORED PROCEDURE";
             "Technical Documentation"; schema a +:+ "." +:+ spName a]
            [("Version: ", "v" +:+ version a, (73, 80, 87));
             ("Type: ", if isQA a then "QA Procedure" else "Production",
              if isQA a then (40, 167, 69) else (73, 80, 87));
             ("Created: ", createdDate a, (73, 80, 87));
             ("Created By: ", createdBy a, (73, 80, 87));
             ("Complexity: ", pretty (complexityScore a) +:+ "/100", (73, 80, 87))]
          :: Divider :: Heading "5 MOST RECENT CHANGES" :: rest
    ∧ count_kind KHeaderTable d = 1
    ∧ count_kind KTable d = (if fullVersionHistory a is [] then 0 else 1).
Proof.
  intros Hr. exists (assemble a). eexists.
  split; [by apply create_sp_doc_renderable|].
  split; [reflexivity|]. split.
  - rewrite count_kind_assemble by apply list_elem_of_here.
    unfold version_history_body.
    by destruct (truthy (fullVersionHistory a)).
  - rewrite count_kind_assemble by apply list_elem_of_further, list_elem_of_here.
    unfold version_history_body.
    by destruct (fullVersionHistory a).
Qed.

Lemma header_and_tables_witness :
  renderable out_of_range_args = true
  ∧ ∃ d rest,
      create_sp_doc out_of_range_args = Ok d
      ∧ d = HeaderTable
              ["STORED PROCEDURE"; "Technical Documentation"; "dbo.usp_Customer_Update"]
              [("Version: ", "v1.2", (73, 80, 87));
               ("Type: ", "Production", (73, 80, 87));
               ("Created: ", "2024-10-01", (73, 80, 87));
               ("Created By: ", "A.Kirby", (73, 80, 87));
               ("Complexity: ", "150/100", (73, 80, 87))]
            :: Divider :: Heading "5 MOST RECENT CHANGES" :: rest
      ∧ count_kind KHeaderTable d = 1
      ∧ count_kind KTable d = 1.
Proof.
  split; [reflexivity|].
  destruct (header_and_tables out_of_range_args) as (d & rest & Hd & -> & Hh & Ht);
    [reflexivity|].
  eexists _, rest. split; [exact Hd|]. split; [vm_compute; reflexivity|].
  split; [exact Hh|exact Ht].
Defined.

(** X15: None and the empty value are interchangeable for the optional
    inputs: the result is the same for whatsNew None and the empty string,
    and for dependencies None and the empty mapping. *)
Theorem none_and_empty_alike (a : Args) :
  create_sp_doc (with_whatsNew (Some "") a) = create_sp_doc (with_whatsNew None a)
  ∧ create_sp_doc (with_dependencies (Some ∅) a)
    = create_sp_doc (with_dependencies None a).
Proof.
  split; [reflexivity|].
  rewrite !create_sp_doc_spec.
  change (texts_ok (with_dependencies (Some ∅) a))
    with (texts_ok (with_dependencies None a)).
  change (refs_ok (with_dependencies (Some ∅) a))
    with (refs_ok (with_dependencies None a)).
  destruct (texts_ok (with_dependencies None a)),
    (refs_ok (with_dependencies None a)); done.
Qed.

(** X17: a returned document has between five and nine numbered sections,
    and nine exactly when the score is above 50 and whatsNew, dependencies,
    performanceNotes and errorHandling are all non-empty. *)
Theorem section_count_bounds (a : Args) :
  renderable a = true →
  ∃ d, create_sp_doc a = Ok d
    ∧ (5 ≤ length (section_numbers d) ≤ 9)%nat
    ∧ (length (section_numbers d) = 9
       ↔ (50 < complexityScore a)%Z
         ∧ (∃ text, whatsNew a = Some text ∧ text ≠ "")
         ∧ (∃ deps, dependencies a = Some deps ∧ deps ≠ ∅)
         ∧ (∃ text, performanceNotes a = Some text ∧ text ≠ "")
         ∧ ∃ text, errorHandling a = Some text ∧ text ≠ "").
Proof.
  intros Hr. exists (assemble a). split; [by apply create_sp_doc_renderable|].
  rewrite section_numbers_assemble, length_seq, emitted_length.
  assert ((gate_count a ≤ 4)%nat
          ∧ (5 + gate_count a = 9
             ↔ whats_new_gate a = true ∧ dependencies_gate a = true
               ∧ performance_notes_gate a = true ∧ error_handling_gate a = true))
    as [Hle ->].
  { unfold gate_count.
    destruct (whats_new_gate a), (dependencies_gate a),
      (performance_notes_gate a), (error_handling_gate a); simpl;
      (split; [lia|split; [try lia; done|intuition discriminate]]). }
  split; [lia|].
  unfold whats_new_gate, performance_notes_gate, error_handling_gate.
  rewrite truthy_option_string_true, dependencies_gate_true, !prose_gate_true.
  intuition lia.
Qed.

Lemma section_count_bounds_witness :
  renderable sample = true
  ∧ ∃ d, create_sp_doc sample = Ok d
      ∧ (5 ≤ length (section_numbers d) ≤ 9)%nat
      ∧ (length (section_numbers d) = 9
         ↔ (50 < complexityScore sample)%Z
           ∧ (∃ text, whatsNew sample = Some text ∧ text ≠ "")
           ∧ (∃ deps, dependencies sample = Some deps ∧ deps ≠ ∅)
           ∧ (∃ text, performanceNotes sample = Some text ∧ text ≠ "")
           ∧ ∃ text, errorHandling sample = Some text ∧ text ≠ "").
Proof.
  split; [reflexivity|]. apply section_count_bounds. reflexivity.
Defined.
